(** * StyleNest sales dashboard: metrics, aggregation and recommendations

    A shallow embedding of [src/app.py].  The program is a Streamlit script
    over pandas data frames; the embedding keeps the script's functions
    ([safe_sum], [compute_metrics], [make_recommendations],
    [create_pdf_report], [create_text_report]) and its top-level sections
    (filters, channel funnel, time of day, sales reps, customer
    segmentation), and models the pandas operations they call.

    Modelling conventions.
    - A number is a rational [Q]; a Python float is a [pyfloat], a rational
      or [NaN].  Rounding of binary floating point and the infinities are
      outside the model.
    - A cell of a data frame is a number, a text, a timestamp or missing
      (pandas NaN / None / NaT).
    - A Python [str] is a [string]; its characters are the code points below
      256.
    - A Python exception is a value [Raise e] of the [result] type; [try] /
      [except] is a match on it. *)

From Stdlib Require Import ZArith QArith Qabs Qround List String Ascii Bool Lia.
From Stdlib Require Import DecimalString.
From Stdlib Require Import Permutation Sorted.
From Stdlib Require Import Lqa.
Import ListNotations.

Local Open Scope string_scope.
Local Open Scope list_scope.
Local Open Scope Q_scope.

(** ** Exceptions *)

Inductive exn : Type :=
| KeyError (name : string)
| ValueError
| TypeError
| IndexError.

Inductive result (A : Type) : Type :=
| Ok (a : A)
| Raise (e : exn).

Arguments Ok {A} a.
Arguments Raise {A} e.

Definition bind {A B : Type} (m : result A) (k : A -> result B) : result B :=
  match m with
  | Ok a => k a
  | Raise e => Raise e
  end.

Notation "x <- m ;; k" := (bind m (fun x => k))
  (at level 61, m at next level, right associativity).

Fixpoint mapM {A B : Type} (f : A -> result B) (l : list A) : result (list B) :=
  match l with
  | [] => Ok []
  | a :: l' => b <- f a ;; bs <- mapM f l' ;; Ok (b :: bs)
  end.

(** ** Values *)

Inductive pyfloat : Type :=
| Fin (q : Q)
| NaN.

Inductive Cell : Type :=
| CNum (q : Q)
| CStr (s : string)
| CTime (t : Z)
| CNaN.

Definition isna (c : Cell) : bool :=
  match c with
  | CNaN => true
  | _ => false
  end.

Definition Qlt_bool (a b : Q) : bool := negb (Qle_bool b a).

(** ** Text *)

(** [str.lower()] on one character: the capital letters of ASCII and of
    Latin-1 (all of 192..222 but the multiplication sign) move 32 up. *)
Definition lower_char (c : ascii) : ascii :=
  let n := nat_of_ascii c in
  if ((65 <=? n) && (n <=? 90))%nat
     || ((192 <=? n) && (n <=? 222) && negb (n =? 215))%nat
  then ascii_of_nat (n + 32)
  else c.

Fixpoint lower (s : string) : string :=
  match s with
  | EmptyString => EmptyString
  | String c s' => String (lower_char c) (lower s')
  end.

(** [s[:n]] *)
Definition take (n : nat) (s : string) : string := substring 0 n s.

(** [s.encode('ascii', 'ignore').decode('ascii')] *)
Fixpoint ascii_only (s : string) : string :=
  match s with
  | EmptyString => EmptyString
  | String c s' =>
      if (nat_of_ascii c <? 128)%nat then String c (ascii_only s')
      else ascii_only s'
  end.

(** [sep.join(ls)] *)
Definition join (sep : string) (ls : list string) : string :=
  String.concat sep ls.

(** *** Number formatting *)

Definition digits (n : Z) : string :=
  NilZero.string_of_uint (N.to_uint (Z.to_N n)).

Fixpoint zeros (n : nat) : string :=
  match n with
  | O => EmptyString
  | S n' => String "0" (zeros n')
  end.

Definition pad_zeros (width : nat) (s : string) : string :=
  (zeros (width - String.length s) ++ s)%string.

(** The digits of [n >= 0] with a comma between groups of three. *)
Fixpoint group3 (fuel : nat) (n : Z) : string :=
  match fuel with
  | O => digits n
  | S fuel' =>
      if (n <? 1000)%Z then digits n
      else (group3 fuel' (n / 1000) ++ "," ++ pad_zeros 3 (digits (n mod 1000)))%string
  end.

Definition int_digits (grouping : bool) (n : Z) : string :=
  if grouping then group3 (S (Z.to_nat (Z.log2 n))) n else digits n.

(** Rounding to the nearest integer, ties to even, as the format
    specifications [.0f], [.1f], [.2f] round. *)
Definition round_half_even (x : Q) : Z :=
  let f := Qfloor x in
  let r := x - inject_Z f in
  if Qlt_bool r (1 # 2) then f
  else if Qlt_bool (1 # 2) r then (f + 1)%Z
  else if Z.even f then f else (f + 1)%Z.

(** [f"{x:.{d}f}"] and, with [grouping], [f"{x:,.{d}f}"]. *)
Definition format_fixed (grouping : bool) (d : nat) (x : pyfloat) : string :=
  match x with
  | NaN => "nan"
  | Fin q =>
      let scale := (10 ^ Z.of_nat d)%Z in
      let n := round_half_even (Qabs q * inject_Z scale) in
      let sign := if Qlt_bool q 0 then "-" else "" in
      let whole := int_digits grouping (n / scale) in
      match d with
      | O => (sign ++ whole)%string
      | S _ => (sign ++ whole ++ "." ++ pad_zeros d (digits (n mod scale)))%string
      end
  end.

(** [int(x)] of a float: truncation toward zero; NaN raises. *)
Definition py_int (x : pyfloat) : result Z :=
  match x with
  | Fin q => Ok (if Qlt_bool q 0 then (- Qfloor (- q))%Z else Qfloor q)
  | NaN => Raise ValueError
  end.

(** [f"{n:,}"] of an integer. *)
Definition format_int_grouped (n : Z) : string :=
  ((if (n <? 0)%Z then "-" else "") ++ int_digits true (Z.abs n))%string.

(** [f"{n}"] of an integer. *)
Definition format_int (n : Z) : string :=
  ((if (n <? 0)%Z then "-" else "") ++ digits (Z.abs n))%string.

(** ** Data frames

    [columns] is [df.columns]; every row holds its cells in column order.
    A row shorter than the header reads as missing in the columns it lacks,
    which is how the parsers pad short lines. *)

Definition Row : Type := list Cell.

Record DataFrame : Type := mkDataFrame {
  columns : list string;
  rows : list Row
}.

Fixpoint index_of (name : string) (names : list string) : option nat :=
  match names with
  | [] => None
  | n :: names' =>
      if String.eqb name n then Some O
      else option_map S (index_of name names')
  end.

(** ['name' in df.columns] *)
Definition has_column (df : DataFrame) (name : string) : bool :=
  existsb (String.eqb name) (columns df).

Definition cell_at (i : nat) (r : Row) : Cell := nth i r CNaN.

(** [df[name]] *)
Definition column (df : DataFrame) (name : string) : result (list Cell) :=
  match index_of name (columns df) with
  | Some i => Ok (map (cell_at i) (rows df))
  | None => Raise (KeyError name)
  end.

(** The cells of a column, none when the column is absent. *)
Definition cells (df : DataFrame) (name : string) : list Cell :=
  match index_of name (columns df) with
  | Some i => map (cell_at i) (rows df)
  | None => []
  end.

(** The number of columns that bear a name.  Line 42 strips the names
    read from the file, so that two columns can end up under one name. *)
Definition count_column (df : DataFrame) (name : string) : nat :=
  List.length (filter (String.eqb name) (columns df)).

(** Several columns bear the name: [df[name]] is then a frame of these
    columns, not a column. *)
Definition duplicated (df : DataFrame) (name : string) : bool :=
  (1 <? count_column df name)%nat.

(** [len(df)] *)
Definition len (df : DataFrame) : nat := List.length (rows df).

Definition Q_of_nat (n : nat) : Q := inject_Z (Z.of_nat n).

(** [Series.sum()] of a float series: missing values are skipped. *)
Definition float_add (acc : Q) (x : pyfloat) : Q :=
  match x with
  | Fin q => acc + q
  | NaN => acc
  end.

Definition series_sum (xs : list pyfloat) : Q := fold_left float_add xs 0.

(** [Series.count()]: the number of values that are not missing. *)
Definition series_count (xs : list pyfloat) : nat :=
  List.length (filter (fun x => match x with Fin _ => true | NaN => false end) xs).

(** [Series.mean()] of a float series: the mean of the values present,
    NaN when there is none. *)
Definition float_mean (xs : list pyfloat) : pyfloat :=
  match series_count xs with
  | O => NaN
  | S n => Fin (series_sum xs / Q_of_nat (S n))
  end.

(** The number behind a cell for a reduction that does not parse text
    ([mean], [quantile], arithmetic between columns): text and timestamps
    raise [TypeError]. *)
Definition number_of_cell (c : Cell) : result pyfloat :=
  match c with
  | CNum q => Ok (Fin q)
  | CNaN => Ok NaN
  | CStr _ => Raise TypeError
  | CTime _ => Raise TypeError
  end.

(** [df[col].mean()] *)
Definition series_mean (s : list Cell) : result pyfloat :=
  xs <- mapM number_of_cell s ;; Ok (float_mean xs).

(** ** Keys: [unique], [isin], boolean indexing *)

(** Equality of cell values as pandas hashes them: missing equals missing. *)
Definition cell_eqb (a b : Cell) : bool :=
  match a, b with
  | CNum x, CNum y => Qeq_bool x y
  | CStr s, CStr t => String.eqb s t
  | CTime s, CTime t => Z.eqb s t
  | CNaN, CNaN => true
  | _, _ => false
  end.

(** [series.unique()]: the distinct values in order of first appearance. *)
Fixpoint unique (l : list Cell) : list Cell :=
  match l with
  | [] => []
  | c :: l' => c :: filter (fun d => negb (cell_eqb c d)) (unique l')
  end.

(** [series.isin(values)] at one cell. *)
Definition isin (values : list Cell) (c : Cell) : bool :=
  existsb (cell_eqb c) values.

(** [df[mask]] where the mask is computed cell by cell from column [name]. *)
Definition select (df : DataFrame) (name : string) (keep : Cell -> bool)
  : result DataFrame :=
  match index_of name (columns df) with
  | Some i =>
      Ok (mkDataFrame (columns df)
            (filter (fun r => keep (cell_at i r)) (rows df)))
  | None => Raise (KeyError name)
  end.

(** [df.iloc[0]] *)
Definition iloc0 (df : DataFrame) : result Row :=
  match rows df with
  | r :: _ => Ok r
  | [] => Raise IndexError
  end.

(** [row[name]] for a row of [df]. *)
Definition row_get (df : DataFrame) (r : Row) (name : string) : result Cell :=
  match index_of name (columns df) with
  | Some i => Ok (cell_at i r)
  | None => Raise (KeyError name)
  end.

(** [df.head(n)] *)
Definition head (n : nat) (df : DataFrame) : DataFrame :=
  mkDataFrame (columns df) (firstn n (rows df)).

(** [df[name] = vals] for a column name the frame does not have yet. *)
Definition assign (df : DataFrame) (name : string) (vals : list Cell)
  : DataFrame :=
  mkDataFrame (columns df ++ [name])
    (map (fun rv => fst rv ++ [snd rv]) (combine (rows df) vals)).

(** ** Sorting

    [sort_values] goes through pandas' [nargsort]: the missing keys are set
    aside and placed last, the others are sorted by a stable sort (numpy's
    default sort is an insertion sort on short inputs), and a descending
    sort reverses the input, sorts it ascending and reverses the result,
    so ties keep their original order in both directions.  Comparing a
    text with a number or a timestamp raises [TypeError]. *)

Fixpoint insert_sorted {A : Type} (leb : A -> A -> bool) (x : A) (l : list A)
  : list A :=
  match l with
  | [] => [x]
  | y :: l' => if leb x y then x :: l else y :: insert_sorted leb x l'
  end.

Definition stable_sort {A : Type} (leb : A -> A -> bool) (l : list A) : list A :=
  fold_right (insert_sorted leb) [] l.

Inductive kind : Type := KNum | KStr | KTime.

Definition kind_of (c : Cell) : option kind :=
  match c with
  | CNum _ => Some KNum
  | CStr _ => Some KStr
  | CTime _ => Some KTime
  | CNaN => None
  end.

Definition kind_eqb (a b : kind) : bool :=
  match a, b with
  | KNum, KNum | KStr, KStr | KTime, KTime => true
  | _, _ => false
  end.

(** All cells of [cs] that are present have the same kind. *)
Definition same_kind (cs : list Cell) : bool :=
  match cs with
  | [] => true
  | c :: cs' =>
      forallb (fun d => match kind_of c, kind_of d with
                        | Some k, Some k' => kind_eqb k k'
                        | _, _ => true
                        end) cs'
  end.

Definition value_leb (a b : Cell) : bool :=
  match a, b with
  | CNum x, CNum y => Qle_bool x y
  | CStr s, CStr t => String.leb s t
  | CTime s, CTime t => Z.leb s t
  | _, _ => true
  end.

Definition nargsort {A : Type} (key : A -> Cell) (ascending : bool) (l : list A)
  : result (list A) :=
  let present := filter (fun a => negb (isna (key a))) l in
  let missing := filter (fun a => isna (key a)) l in
  if same_kind (map key present) then
    let leb a b := value_leb (key a) (key b) in
    let sorted := if ascending then stable_sort leb present
                  else rev (stable_sort leb (rev present)) in
    Ok (sorted ++ missing)
  else Raise TypeError.

(** [df.sort_values(col, ascending=...)] *)
Definition sort_values (df : DataFrame) (col : string) (ascending : bool)
  : result DataFrame :=
  match index_of col (columns df) with
  | Some i =>
      rs <- nargsort (cell_at i) ascending (rows df) ;;
      Ok (mkDataFrame (columns df) rs)
  | None => Raise (KeyError col)
  end.

(** ** Group-by and aggregation *)

(** The order of group keys ([groupby] sorts them): values that are not
    text come before text; among those, numbers before timestamps. *)
Definition key_leb (a b : Cell) : bool :=
  match a, b with
  | CNum x, CNum y => Qle_bool x y
  | CNum _, _ => true
  | CTime _, CNum _ => false
  | CTime s, CTime t => Z.leb s t
  | CTime _, _ => true
  | CStr s, CStr t => String.leb s t
  | CStr _, CNaN => true
  | CStr _, _ => false
  | CNaN, CNaN => true
  | CNaN, _ => false
  end.

(** The groups of [df.groupby(key)]: the distinct key values that are not
    missing ([dropna=True] is the default), sorted. *)
Definition group_keys (keys : list Cell) : list Cell :=
  stable_sort key_leb (unique (filter (fun c => negb (isna c)) keys)).

Inductive AggFunc : Type := AggSum | AggCount | AggMean.

(** [+] between two Python objects of a column. *)
Definition obj_add (a b : Cell) : result Cell :=
  match a, b with
  | CNum x, CNum y => Ok (CNum (x + y))
  | CStr s, CStr t => Ok (CStr (s ++ t))
  | _, _ => Raise TypeError
  end.

Fixpoint sum_from (acc : Cell) (l : list Cell) : result Cell :=
  match l with
  | [] => Ok acc
  | c :: l' =>
      if isna c then sum_from acc l'
      else acc' <- obj_add acc c ;; sum_from acc' l'
  end.

(** The group sum: missing values are skipped, the first value present
    starts the sum, a group with no value sums to 0; texts concatenate,
    a text and a number do not add, timestamps do not sum. *)
Fixpoint agg_sum (l : list Cell) : result Cell :=
  match l with
  | [] => Ok (CNum 0)
  | CNaN :: l' => agg_sum l'
  | CTime _ :: _ => Raise TypeError
  | c :: l' => sum_from c l'
  end.

Definition agg_count (l : list Cell) : Cell :=
  CNum (Q_of_nat (List.length (filter (fun c => negb (isna c)) l))).

Definition cell_of_float (x : pyfloat) : Cell :=
  match x with
  | Fin q => CNum q
  | NaN => CNaN
  end.

Definition agg_mean (l : list Cell) : result Cell :=
  xs <- mapM number_of_cell l ;; Ok (cell_of_float (float_mean xs)).

Definition aggregate (f : AggFunc) (l : list Cell) : result Cell :=
  match f with
  | AggSum => agg_sum l
  | AggCount => Ok (agg_count l)
  | AggMean => agg_mean l
  end.

(** A named aggregation [out=(col, func)]. *)
Definition NamedAgg : Type := (string * (string * AggFunc))%type.

Definition find_column (df : DataFrame) (name : string) : result nat :=
  match index_of name (columns df) with
  | Some i => Ok i
  | None => Raise (KeyError name)
  end.

(** [df.groupby(key).agg(out1=(col1, f1), ...).reset_index()]: one row per
    group, the key first, then the aggregates in the order given. *)
Definition groupby_agg (df : DataFrame) (key : string) (specs : list NamedAgg)
  : result DataFrame :=
  ki <- find_column df key ;;
  cols <- mapM (fun sp : NamedAgg =>
                  j <- find_column df (fst (snd sp)) ;; Ok (j, snd (snd sp)))
               specs ;;
  rs <- mapM (fun k =>
                let grp := filter (fun r => cell_eqb (cell_at ki r) k) (rows df) in
                vals <- mapM (fun jf : nat * AggFunc =>
                                aggregate (snd jf) (map (cell_at (fst jf)) grp))
                             cols ;;
                Ok (k :: vals))
             (group_keys (map (cell_at ki) (rows df))) ;;
  Ok (mkDataFrame (key :: map fst specs) rs).

(** [series.replace(0, np.nan)] at one cell. *)
Definition replace_zero_nan (c : Cell) : Cell :=
  match c with
  | CNum q => if Qeq_bool q 0 then CNaN else c
  | _ => c
  end.

(** [a / b] between two cells of numeric columns.  A zero divisor gives
    an infinity or NaN in pandas; the callers replace zeros by missing
    beforehand, and the model, which has no infinity, answers missing. *)
Definition cell_div (a b : Cell) : result Cell :=
  x <- number_of_cell a ;;
  y <- number_of_cell b ;;
  match x, y with
  | Fin p, Fin q => Ok (if Qeq_bool q 0 then CNaN else CNum (p / q))
  | _, _ => Ok CNaN
  end.

(** [df[name] = df[num] / df[den].replace(0, np.nan)] *)
Definition assign_ratio (df : DataFrame) (name num den : string)
  : result DataFrame :=
  n <- column df num ;;
  d <- column df den ;;
  vals <- mapM (fun ab => cell_div (fst ab) (snd ab))
               (combine n (map replace_zero_nan d)) ;;
  Ok (assign df name vals).

Definition present_values (xs : list pyfloat) : list Q :=
  flat_map (fun x => match x with Fin q => [q] | NaN => [] end) xs.

(** [series.quantile(q)], linear interpolation between the two nearest
    order statistics of the values present; NaN on an empty series. *)
Definition quantile (q : Q) (s : list Cell) : result pyfloat :=
  xs <- mapM number_of_cell s ;;
  let vals := stable_sort Qle_bool (present_values xs) in
  match vals with
  | [] => Ok NaN
  | v0 :: _ =>
      let pos := q * Q_of_nat (List.length vals - 1) in
      let lo := Z.to_nat (Qfloor pos) in
      let frac := pos - inject_Z (Qfloor pos) in
      let a := nth lo vals v0 in
      let b := nth (S lo) vals a in
      Ok (Fin (a + (b - a) * frac))
  end.

(** [cell < t] between a cell of a numeric column and a float. *)
Definition cell_lt_float (c : Cell) (t : pyfloat) : result bool :=
  x <- number_of_cell c ;;
  match x, t with
  | Fin a, Fin b => Ok (Qlt_bool a b)
  | _, _ => Ok false
  end.

(** [', '.join] accepts [str] items only. *)
Definition str_item (c : Cell) : result string :=
  match c with
  | CStr s => Ok s
  | _ => Raise TypeError
  end.

(** [f"{c:.2f}"] of a cell: text has no format code [f]. *)
Definition format_cell_2f (c : Cell) : result string :=
  match c with
  | CNum q => Ok (format_fixed false 2 (Fin q))
  | CNaN => Ok (format_fixed false 2 NaN)
  | _ => Raise ValueError
  end.

(** The names the inventory reminder looks for, line 87. *)
Definition inventory_columns : list string :=
  ["stock"; "inventory"; "return"; "returns"; "return_flag"; "return_quantity"].

Definition inventory_note : string :=
  "Inventory & Returns data not present. For full campaign ROI and stock risk analysis, include product-stock & returns fields.".

(** ** Totals of numeric columns *)

(** The number in a cell, 0 for a cell without one. *)
Definition amount (c : Cell) : Q :=
  match c with
  | CNum q => q
  | _ => 0
  end.

Definition total (cs : list Cell) : Q :=
  fold_right (fun c acc => amount c + acc) 0 cs.

(** A cell of a numeric column: a number or missing. *)
Definition numeric (c : Cell) : bool :=
  match c with
  | CNum _ | CNaN => true
  | _ => false
  end.

(** [df.dropna(subset=[key])]: the rows whose [key] is present. *)
Definition dropna (df : DataFrame) (key : string) : DataFrame :=
  match index_of key (columns df) with
  | Some i =>
      mkDataFrame (columns df)
        (filter (fun r => negb (isna (cell_at i r))) (rows df))
  | None => df
  end.

(** ** Groups and thresholds, for the statements *)

(** How many of the keys [ks] equal [c], and a sum over keys. *)
Definition occurrences (ks : list Cell) (c : Cell) : nat :=
  List.length (filter (cell_eqb c) ks).

Definition sum_over (f : Cell -> Q) (ks : list Cell) : Q :=
  fold_right (fun k acc => f k + acc) 0 ks.

(** A summed revenue strictly below the threshold. *)
Definition is_below (t : pyfloat) (c : Cell) : bool :=
  match c, t with
  | CNum q, Fin th => Qlt_bool q th
  | _, _ => false
  end.

(** The cells [cs] hold the numbers [qs]. *)
Definition amounts_are (cs : list Cell) (qs : list Q) : Prop :=
  Forall2 (fun c q => exists x, c = CNum x /\ x == q) cs qs.

(** Rows in ascending order of the amount in column [i]. *)
Definition ascending_by (i : nat) (l : list Row) : Prop :=
  Sorted (fun a b => amount (cell_at i a) <= amount (cell_at i b)) l.

(** ** Dates

    A timestamp counts nanoseconds since the epoch; a calendar date counts
    days; [None] is NaT.  [load_data] has turned every value of the Date
    column into a timestamp or NaT ([errors='coerce']), so a cell of that
    column that is not a timestamp reads as NaT. *)

Definition day_ns : Z := 86400000000000.

Definition time_of_cell (c : Cell) : option Z :=
  match c with
  | CTime t => Some t
  | _ => None
  end.

Definition opt_extremum (pick : Z -> Z -> Z) (acc : option Z) (c : Cell)
  : option Z :=
  match time_of_cell c, acc with
  | Some t, Some a => Some (pick a t)
  | Some t, None => Some t
  | None, _ => acc
  end.

(** [df['Date'].min()] and [.max()]: missing values are skipped. *)
Definition series_min (s : list Cell) : option Z :=
  fold_left (opt_extremum Z.min) s None.

Definition series_max (s : list Cell) : option Z :=
  fold_left (opt_extremum Z.max) s None.

(** [Timestamp.date()]; [NaT.date()] is NaT. *)
Definition date_of (t : option Z) : option Z :=
  option_map (fun t => (t / day_ns)%Z) t.

(** [pd.to_datetime(d)] of a date: its midnight. *)
Definition to_datetime (d : option Z) : option Z :=
  option_map (fun d => (d * day_ns)%Z) d.

(** [df['Date'] >= bound] and [<=] at one cell: false on NaT. *)
Definition time_ge (c : Cell) (bound : option Z) : bool :=
  match time_of_cell c, bound with
  | Some t, Some b => (b <=? t)%Z
  | _, _ => false
  end.

Definition time_le (c : Cell) (bound : option Z) : bool :=
  match time_of_cell c, bound with
  | Some t, Some b => (t <=? b)%Z
  | _, _ => false
  end.

(** ** The sidebar

    What the user does with the widgets: [date_input value_lo value_hi]
    answers the dates picked, [multiselect label options] the options
    picked. *)
Record Sidebar : Type := mkSidebar {
  date_input : option Z -> option Z -> list (option Z);
  multiselect : string -> list Cell -> list Cell
}.

(** The widgets left as they come up: the full date range, every option. *)
Definition select_all : Sidebar :=
  mkSidebar (fun lo hi => [lo; hi]) (fun _ options => options).

(** [series.unique().tolist()] when the column is there, else [[]]. *)
Definition options_of (df : DataFrame) (name : string) : result (list Cell) :=
  if has_column df name then s <- column df name ;; Ok (unique s)
  else Ok [].

(** [if sel: df = df[df[name].isin(sel)]] *)
Definition filter_isin (df : DataFrame) (name : string) (sel : list Cell)
  : result DataFrame :=
  match sel with
  | [] => Ok df
  | _ :: _ => select df name (isin sel)
  end.

(** The filters, lines 177-195. *)
Definition filters (ui : Sidebar) (df : DataFrame) : result DataFrame :=
  df <- (if has_column df "Date" then
           dates <- column df "Date" ;;
           let lo := date_of (series_min dates) in
           let hi := date_of (series_max dates) in
           match date_input ui lo hi with
           | [d0; d1] =>
               select df "Date"
                 (fun c => time_ge c (to_datetime d0)
                           && time_le c (to_datetime d1))
           | _ => Ok df
           end
         else Ok df) ;;
  channels <- options_of df "Channel" ;;
  df <- filter_isin df "Channel" (multiselect ui "Channel" channels) ;;
  cust_types <- options_of df "Customer Type" ;;
  df <- filter_isin df "Customer Type"
          (multiselect ui "Customer Type" cust_types) ;;
  if has_column df "Business" then
    bizs <- options_of df "Business" ;;
    filter_isin df "Business" (multiselect ui "Business / Branch" bizs)
  else Ok df.


(** ** Dashboard sections

    A section shows the frame it computed (the charts and tables are drawn
    from it) or an informational message. *)
Inductive Display : Type :=
| Shown (t : DataFrame)
| Info (msg : string).

(** ** The PDF page

    The calls made on the [FPDF] object, in order; [TextCell w h txt align]
    is [pdf.cell(w, h, txt, ln=True, align=align)]. *)
Inductive PdfOp : Type :=
| AddPage
| SetAutoPageBreak (margin : Z)
| SetLeftMargin (margin : Z)
| SetRightMargin (margin : Z)
| SetFont (family style : string) (size : Z)
| TextCell (w h : Z) (txt : string) (align : string)
| Ln (h : Z).

Record Metrics : Type := mkMetrics {
  revenue : Q;
  orders : Q;
  aov : pyfloat;
  conv_rate : pyfloat;
  nrows : nat
}.

(** ** A Python runtime for the examples

    [float()] restricted to unsigned decimal integers, [str()] of a number
    by its integer part, [str()] of a date by its day count. *)

Fixpoint digits_value (acc : Z) (s : string) : option Z :=
  match s with
  | EmptyString => Some acc
  | String c s' =>
      let n := nat_of_ascii c in
      if ((48 <=? n) && (n <=? 57))%nat
      then digits_value (10 * acc + Z.of_nat (n - 48)) s'
      else None
  end.

Definition demo_float (s : string) : option pyfloat :=
  match s with
  | EmptyString => None
  | _ => option_map (fun z => Fin (inject_Z z)) (digits_value 0 s)
  end.

Definition demo_str (c : Cell) : string :=
  match c with
  | CNum q => format_int (Qfloor q)
  | CTime t => format_int t
  | CStr s => s
  | CNaN => "nan"
  end.


(** ** Sample data *)

(** The end-to-end scenario: four rows, channels A and B. *)
Definition df_scenario : DataFrame :=
  mkDataFrame ["Channel"; "Revenue"; "Conversions"]
    [[CStr "A"; CNum 100; CNum 2];
     [CStr "B"; CNum 200; CNum 4];
     [CStr "A"; CNum 50; CNum 1];
     [CStr "B"; CNum 150; CNum 3]].

(** The metrics of the scenario. *)
Definition scenario_metrics : Metrics :=
  mkMetrics 500 10 (Fin (500 # 10)) (Fin (10 # 4)) 4.

(** A selection without rows. *)
Definition df_header_only : DataFrame :=
  mkDataFrame ["Channel"; "Revenue"] [].

(** One row, whose channel is missing. *)
Definition df_unattributed : DataFrame :=
  mkDataFrame ["Channel"; "Revenue"] [[CNaN; CNum 100]].

(** A dataset without a Revenue column. *)
Definition df_no_revenue : DataFrame :=
  mkDataFrame ["Date"; "Time of Day"; "Channel"; "Customer Type"; "Sales Rep"]
    [[CTime 0; CStr "Morning"; CStr "Web"; CStr "New"; CStr "Ann"]].




(** A row whose date failed to parse. *)
Definition df_unparsed_date : DataFrame :=
  mkDataFrame ["Date"; "Revenue"] [[CTime 0; CNum 10]; [CNaN; CNum 5]].

(** A row without a channel. *)
Definition df_missing_channel : DataFrame :=
  mkDataFrame ["Channel"; "Revenue"] [[CStr "A"; CNum 100]; [CNaN; CNum 50]].

(** Five sales reps, one of them below the first quartile of revenue. *)
Definition df_reps : DataFrame :=
  mkDataFrame ["Sales Rep"; "Revenue"]
    [[CStr "Ann"; CNum 100]; [CStr "Bob"; CNum 20]; [CStr "Cy"; CNum 70];
     [CStr "Dee"; CNum 30]; [CStr "Eve"; CNum 90]; [CStr "Bob"; CNum 5]].

(** A Revenue column with one value that is not a number. *)
Definition df_mixed_revenue : DataFrame :=
  mkDataFrame ["Revenue"] [[CNum 100]; [CStr "abc"]; [CNum 50]].

(** Two columns under the name Revenue. *)
Definition df_two_revenues : DataFrame :=
  mkDataFrame ["Revenue"; "Revenue"] [[CNum 100; CNum 1]; [CNum 50; CNum 2]].

(** Conversions and Average Order Size held as text. *)
Definition df_text_columns : DataFrame :=
  mkDataFrame ["Channel"; "Revenue"; "Conversions"; "Average Order Size"]
    [[CStr "A"; CNum 100; CStr "two"; CStr "fifty"];
     [CStr "B"; CNum 200; CStr "four"; CStr "fifty"];
     [CStr "A"; CNum 50; CStr "one"; CStr "fifty"]].

Section Dashboard.

(** Python's [float(s)] on a [str]: [None] when it raises [ValueError]. *)
Variable float_of_text : string -> option pyfloat.

(** One element of [series.astype(float)]. *)
Definition float_of_cell (c : Cell) : result pyfloat :=
  match c with
  | CNum q => Ok (Fin q)
  | CNaN => Ok NaN
  | CStr s =>
      match float_of_text s with
      | Some x => Ok x
      | None => Raise ValueError
      end
  | CTime _ => Raise TypeError
  end.

Definition astype_float (series : list Cell) : result (list pyfloat) :=
  mapM float_of_cell series.

(** [safe_sum], lines 47-51. *)
Definition safe_sum (series : list Cell) : Q :=
  match astype_float series with
  | Ok xs => series_sum xs
  | Raise _ => 0
  end.

(** [safe_sum(df[name])], lines 54-55 with 47-51.  When several columns
    bear the name, [df[name]] is a frame and its [.sum()] a Series with one
    entry per column: [float] of it raises [TypeError] (if [.astype(float)]
    has not raised before), and the [except] answers 0.0. *)
Definition safe_sum_of (df : DataFrame) (name : string) : result Q :=
  if duplicated df name then Ok 0
  else s <- column df name ;; Ok (safe_sum s).

(** [compute_metrics], lines 53-60.  The mean of line 58 is taken on a
    dataset without rows only; when several columns are named Average Order
    Size it is a Series holding one NaN per column, of which the record
    keeps the NaN. *)
Definition compute_metrics (df : DataFrame) : result Metrics :=
  rev <- (if has_column df "Revenue"
          then safe_sum_of df "Revenue"
          else Ok 0) ;;
  conversions <- (if has_column df "Conversions"
                  then safe_sum_of df "Conversions"
                  else Ok 0) ;;
  let orders := if Qlt_bool 0 conversions then conversions
                else Q_of_nat (len df) in
  aov <- (if Qlt_bool 0 orders then Ok (Fin (rev / orders))
          else if has_column df "Average Order Size"
               then s <- column df "Average Order Size" ;; series_mean s
               else Ok (Fin 0)) ;;
  let conv_rate := if (0 <? len df)%nat && has_column df "Conversions"
                   then Fin (conversions / Q_of_nat (len df))
                   else NaN in
  Ok (mkMetrics rev orders aov conv_rate (len df)).

(** [str(x)] of a number or a timestamp. *)
Variable str_of_scalar : Cell -> string.

(** [f"{c}"] of a cell. *)
Definition py_str (c : Cell) : string :=
  match c with
  | CStr s => s
  | CNaN => "nan"
  | _ => str_of_scalar c
  end.

(** The three aggregations of lines 66-68 (and 217-219, 255-257), whose
    sources depend on the columns present. *)
Definition conversions_agg (df : DataFrame) : string * AggFunc :=
  if has_column df "Conversions" then ("Conversions", AggSum)
  else ("Revenue", AggCount).

Definition avg_order_agg (df : DataFrame) : string * AggFunc :=
  if has_column df "Average Order Size" then ("Average Order Size", AggMean)
  else ("Revenue", AggMean).

Definition msg_focus (channel rev_per_conv : string) : string :=
  ("Focus investment on " ++ channel
   ++ " - highest revenue per conversion (~" ++ rev_per_conv ++ ").")%string.

Definition msg_review (channel rev_per_conv : string) : string :=
  ("Review or optimize " ++ channel
   ++ " - low revenue efficiency (~" ++ rev_per_conv ++ ").")%string.

Definition msg_peak (top_tod : string) : string :=
  ("Peak selling window: " ++ top_tod
   ++ ". Schedule paid promotions or flash deals in this window.")%string.

Definition msg_coaching (small : string) : string :=
  ("Consider targeted coaching for lower performers: " ++ small ++ ".")%string.

(** The table of channels with its efficiency column, lines 66-69. *)
Definition channel_table (df : DataFrame) : result DataFrame :=
  ch <- groupby_agg df "Channel"
          [("Revenue", ("Revenue", AggSum));
           ("Conversions", conversions_agg df);
           ("AOV", avg_order_agg df)] ;;
  assign_ratio ch "Rev_per_Conv" "Revenue" "Conversions".

(** Channel-level insight, lines 65-73. *)
Definition channel_insight (df : DataFrame) : result (list string) :=
  if has_column df "Channel" && has_column df "Revenue" then
    ch <- channel_table df ;;
    by_desc <- sort_values ch "Rev_per_Conv" false ;;
    best <- iloc0 by_desc ;;
    by_asc <- sort_values ch "Rev_per_Conv" true ;;
    worst <- iloc0 by_asc ;;
    best_channel <- row_get ch best "Channel" ;;
    best_rpc <- row_get ch best "Rev_per_Conv" ;;
    best_txt <- format_cell_2f best_rpc ;;
    worst_channel <- row_get ch worst "Channel" ;;
    worst_rpc <- row_get ch worst "Rev_per_Conv" ;;
    worst_txt <- format_cell_2f worst_rpc ;;
    Ok [msg_focus (py_str best_channel) best_txt;
        msg_review (py_str worst_channel) worst_txt]
  else Ok [].

(** Time of day insight, lines 75-78. *)
Definition time_of_day_insight (df : DataFrame) : result (list string) :=
  if has_column df "Time of Day" && has_column df "Revenue" then
    tod <- groupby_agg df "Time of Day" [("Revenue", ("Revenue", AggSum))] ;;
    tod <- sort_values tod "Revenue" false ;;
    top <- iloc0 tod ;;
    top_tod <- row_get tod top "Time of Day" ;;
    Ok [msg_peak (py_str top_tod)]
  else Ok [].

(** The rows of [rep] below the first quartile of revenue, sorted by
    revenue, first three: [low.sort_values('Revenue').head(3)], with [low]
    of line 82; [None] when [low] is empty. *)
Definition low_performers (rep : DataFrame) : result (option DataFrame) :=
  revs <- column rep "Revenue" ;;
  threshold <- quantile (1 # 4) revs ;;
  mask <- mapM (fun c => cell_lt_float c threshold) revs ;;
  let low := mkDataFrame (columns rep)
               (map fst (filter snd (combine (rows rep) mask))) in
  match rows low with
  | [] => Ok None
  | _ :: _ =>
      sorted <- sort_values low "Revenue" true ;;
      Ok (Some (head 3 sorted))
  end.

(** Sales rep coaching, lines 80-85. *)
Definition sales_rep_coaching (df : DataFrame) : result (list string) :=
  if has_column df "Sales Rep" && has_column df "Revenue" then
    rep <- groupby_agg df "Sales Rep"
             [("Revenue", ("Revenue", AggSum));
              ("Conversions", conversions_agg df)] ;;
    low <- low_performers rep ;;
    match low with
    | None => Ok []
    | Some top3 =>
        names <- column top3 "Sales Rep" ;;
        items <- mapM str_item names ;;
        Ok [msg_coaching (join ", " items)]
    end
  else Ok [].

(** Inventory and returns reminder, lines 87-88. *)
Definition inventory_reminder (df : DataFrame) : list string :=
  if existsb (fun c => existsb (String.eqb (lower c)) inventory_columns)
             (columns df)
  then []
  else [inventory_note].

(** [make_recommendations], lines 62-89. *)
Definition make_recommendations (df : DataFrame) : result (list string) :=
  channel <- channel_insight df ;;
  time_of_day <- time_of_day_insight df ;;
  coaching <- sales_rep_coaching df ;;
  Ok (channel ++ time_of_day ++ coaching ++ inventory_reminder df).

(** Channel funnel and efficiency, lines 216-226. *)
Definition channel_funnel (df : DataFrame) : result Display :=
  if has_column df "Channel" then
    chan <- groupby_agg df "Channel"
              [("Revenue", ("Revenue", AggSum));
               ("Conversions", conversions_agg df);
               ("Avg_Order", avg_order_agg df)] ;;
    chan <- assign_ratio chan "Revenue_per_Conv" "Revenue" "Conversions" ;;
    chan <- sort_values chan "Revenue" false ;;
    Ok (Shown chan)
  else Ok (Info "Channel data not available.").

(** Revenue by time of day, lines 243-248. *)
Definition time_of_day_section (df : DataFrame) : result Display :=
  if has_column df "Time of Day" then
    tod <- groupby_agg df "Time of Day" [("Revenue", ("Revenue", AggSum))] ;;
    tod <- sort_values tod "Revenue" false ;;
    Ok (Shown tod)
  else Ok (Info "Time of Day column not present.").

(** Sales rep performance, lines 254-264. *)
Definition sales_rep_section (df : DataFrame) : result Display :=
  if has_column df "Sales Rep" && has_column df "Revenue" then
    rep <- groupby_agg df "Sales Rep"
             [("Revenue", ("Revenue", AggSum));
              ("Conversions", conversions_agg df);
              ("Avg_Order", avg_order_agg df)] ;;
    rep <- assign_ratio rep "Revenue_per_Conv" "Revenue" "Conversions" ;;
    rep <- sort_values rep "Revenue" false ;;
    Ok (Shown rep)
  else Ok (Info "Sales Rep analysis requires Sales Rep & Revenue columns.").

(** Customer segmentation, lines 270-276. *)
Definition customer_segmentation (df : DataFrame) : result Display :=
  if has_column df "Customer Type" then
    cust <- groupby_agg df "Customer Type"
              [("Revenue", ("Revenue", AggSum));
               ("Conversions", conversions_agg df)] ;;
    Ok (Shown cust)
  else Ok (Info "Customer Type column not present.").

(** The tables for the reports, lines 293-294. *)
Definition top_table (df : DataFrame) (name : string) : result DataFrame :=
  if has_column df name then
    t <- groupby_agg df name [("Revenue", ("Revenue", AggSum))] ;;
    sort_values t "Revenue" false
  else Ok (mkDataFrame [name; "Revenue"] []).

Definition top_channels (df : DataFrame) : result DataFrame :=
  top_table df "Channel".

Definition top_reps (df : DataFrame) : result DataFrame :=
  top_table df "Sales Rep".

(** [str(d)] of a calendar date. *)
Variable str_of_date : Z -> string.



(** One row of a report table, lines 126-131 and 140-145: a row whose
    fields cannot be read or converted is skipped. *)
Definition pdf_table_row (t : DataFrame) (name : string) (r : Row)
  : list PdfOp :=
  match (c <- row_get t r name ;;
         v <- row_get t r "Revenue" ;;
         rev <- float_of_cell v ;;
         Ok (take 40 (py_str c), rev)) with
  | Ok (label, rev) =>
      [TextCell 0 5 (label ++ ": $" ++ format_fixed true 0 rev)%string ""]
  | Raise _ => []
  end.

Definition pdf_table (title name : string) (t : DataFrame) : list PdfOp :=
  match rows t with
  | [] => []
  | _ :: _ =>
      [SetFont "Helvetica" "B" 12; TextCell 0 7 title ""; SetFont "Helvetica" "" 10]
      ++ flat_map (pdf_table_row t name) (rows (head 5 t))
      ++ [Ln 5]
  end.

Fixpoint pdf_recs (i : Z) (recs : list string) : list PdfOp :=
  match recs with
  | [] => []
  | r :: recs' =>
      TextCell 0 5 (format_int i ++ ". " ++ take 100 (ascii_only r))%string ""
      :: pdf_recs (i + 1) recs'
  end.

(** The recommendations of the page, lines 149-159: at most five, each
    stripped to ASCII and cut at 100 characters. *)
Definition pdf_recommendations (recs : list string) : list PdfOp :=
  match recs with
  | [] => []
  | _ :: _ =>
      [SetFont "Helvetica" "B" 12; TextCell 0 7 "Recommendations" "";
       SetFont "Helvetica" "" 10]
      ++ pdf_recs 1 (firstn 5 recs)
  end.

(** [create_pdf_report], lines 91-161.  [today] is
    [datetime.utcnow().strftime('%Y-%m-%d')]; the value returned is the
    page content handed to the PDF writer. *)
Definition create_pdf_report (metrics : Metrics)
    (top_channels top_reps : DataFrame) (recs : list string) (meta : string)
    (today : string) : result (list PdfOp) :=
  n_orders <- py_int (Fin (orders metrics)) ;;
  let conv := match conv_rate metrics with
              | Fin c => (format_fixed false 1 (Fin (c * 100)) ++ "%")%string
              | NaN => "N/A"
              end in
  Ok ([AddPage; SetAutoPageBreak 15; SetLeftMargin 15; SetRightMargin 15;
       SetFont "Helvetica" "B" 16; TextCell 0 10 "Executive Summary" "C"; Ln 5;
       SetFont "Helvetica" "" 10; TextCell 0 5 today ""; Ln 5;
       SetFont "Helvetica" "B" 12; TextCell 0 7 "Key Metrics" "";
       SetFont "Helvetica" "" 10;
       TextCell 0 5 ("Revenue: $" ++ format_fixed true 0 (Fin (revenue metrics)))%string "";
       TextCell 0 5 ("Orders: " ++ format_int_grouped n_orders)%string "";
       TextCell 0 5 ("Avg Order: $" ++ format_fixed true 0 (aov metrics))%string "";
       TextCell 0 5 ("Conv Rate: " ++ conv)%string "";
       Ln 5]
      ++ pdf_table "Top Channels" "Channel" top_channels
      ++ pdf_table "Top Sales Reps" "Sales Rep" top_reps
      ++ pdf_recommendations recs).

(** ** The column totals the metrics are compared with *)

Definition coerces (c : Cell) : bool :=
  match float_of_cell c with
  | Ok _ => true
  | Raise _ => false
  end.

(** What one cell adds to a total when a value that fails to coerce counts
    for zero. *)
Definition contribution (c : Cell) : Q :=
  match float_of_cell c with
  | Ok (Fin q) => q
  | _ => 0
  end.

Definition lenient_sum (s : list Cell) : Q :=
  fold_right (fun c acc => contribution c + acc) 0 s.

(** The total of a column all of whose values coerce; 0 as soon as one
    does not. *)
Definition strict_sum (s : list Cell) : Q :=
  if forallb coerces s then lenient_sum s else 0.

(** Every failing value counted for zero. *)
Definition lenient_total (df : DataFrame) (name : string) : Q :=
  if has_column df name then lenient_sum (cells df name) else 0.

(** One failing value zeroes the column, and so does a second column of
    the same name. *)
Definition column_total (df : DataFrame) (name : string) : Q :=
  if has_column df name && negb (duplicated df name)
  then strict_sum (cells df name)
  else 0.

Definition float_eq (x y : pyfloat) : Prop :=
  match x, y with
  | Fin a, Fin b => a == b
  | NaN, NaN => True
  | _, _ => False
  end.

(** The formulas of the metrics record, over a notion [total] of column
    sum. *)
Definition metrics_follow (total : DataFrame -> string -> Q) (df : DataFrame)
  : Prop :=
  exists m,
    compute_metrics df = Ok m
    /\ revenue m == total df "Revenue"
    /\ orders m == (if Qlt_bool 0 (total df "Conversions")
                    then total df "Conversions"
                    else Q_of_nat (len df))
    /\ (0 < orders m -> aov m = Fin (revenue m / orders m))
    /\ (~ 0 < orders m -> has_column df "Average Order Size" = true ->
        duplicated df "Average Order Size" = false ->
        series_mean (cells df "Average Order Size") = Ok (aov m))
    /\ (~ 0 < orders m -> has_column df "Average Order Size" = false ->
        aov m = Fin 0)
    /\ float_eq (conv_rate m)
         (if has_column df "Conversions" && (0 <? len df)%nat
          then Fin (total df "Conversions" / Q_of_nat (len df))
          else NaN)
    /\ nrows m = len df.

(** The column is there and holds numbers and missing values only. *)
Definition numeric_column (df : DataFrame) (name : string) : bool :=
  has_column df name && forallb numeric (cells df name).

(** The sum of Revenue per group, first of the aggregations of
    [groupby_agg]. *)
Definition revenue_sum : NamedAgg := ("Revenue", ("Revenue", AggSum)).

(** ** The report of an empty selection *)





(** The recommendations name the two channels of the scenario, one in the
    invest-more message and the other in the review message. *)
Definition names_one_channel_each (recs : list string) : Prop :=
  exists best worst best_rpc worst_rpc,
    In (msg_focus best best_rpc) recs
    /\ In (msg_review worst worst_rpc) recs
    /\ ((best = "A" /\ worst = "B") \/ (best = "B" /\ worst = "A")).

(** The table of reps of [df_reps] and the first quartile of its
    revenue. *)
Definition rep_table : DataFrame :=
  Eval vm_compute in
    match groupby_agg df_reps "Sales Rep"
            [revenue_sum; ("Conversions", conversions_agg df_reps)] with
    | Ok t => t
    | Raise _ => mkDataFrame [] []
    end.

Definition rep_threshold : pyfloat :=
  Eval vm_compute in
    match quantile (1 # 4) (cells rep_table "Revenue") with
    | Ok t => t
    | Raise _ => NaN
    end.

(** ** Further definitions: the two halves of the filters *)

(** The date range filter, lines 177-181. *)
Definition date_filter (ui : Sidebar) (df : DataFrame) : result DataFrame :=
  if has_column df "Date" then
    dates <- column df "Date" ;;
    let lo := date_of (series_min dates) in
    let hi := date_of (series_max dates) in
    match date_input ui lo hi with
    | [d0; d1] =>
        select df "Date"
          (fun c => time_ge c (to_datetime d0) && time_le c (to_datetime d1))
    | _ => Ok df
    end
  else Ok df.

(** The categorical filters, lines 182-195. *)
Definition category_filters (ui : Sidebar) (df : DataFrame)
  : result DataFrame :=
  channels <- options_of df "Channel" ;;
  df <- filter_isin df "Channel" (multiselect ui "Channel" channels) ;;
  cust_types <- options_of df "Customer Type" ;;
  df <- filter_isin df "Customer Type"
          (multiselect ui "Customer Type" cust_types) ;;
  if has_column df "Business" then
    bizs <- options_of df "Business" ;;
    filter_isin df "Business" (multiselect ui "Business / Branch" bizs)
  else Ok df.

(** [d] has the columns of [df] and some of its rows, in their order. *)
Definition narrows (df d : DataFrame) : Prop :=
  columns d = columns df
  /\ exists keep, rows d = filter keep (rows df).

(** Two rows, the later one with a time of day. *)
Definition df_timed : DataFrame :=
  mkDataFrame ["Date"; "Revenue"]
    [[CTime 0; CNum 10]; [CTime 86400000000001; CNum 5]].

(** The scenario with its rows in reverse order. *)
Definition df_scenario_reversed : DataFrame :=
  mkDataFrame (columns df_scenario) (rev (rows df_scenario)).



(** The float in a cell of a numeric column. *)
Definition float_of_numeric (c : Cell) : pyfloat :=
  match c with
  | CNum q => Fin q
  | _ => NaN
  end.

(** Five sales over three channels, two windows and three reps. *)
Definition df_week : DataFrame :=
  mkDataFrame ["Channel"; "Time of Day"; "Sales Rep"; "Revenue"; "Conversions"]
    [[CStr "Web"; CStr "Morning"; CStr "Ann"; CNum 300; CNum 3];
     [CStr "Store"; CStr "Evening"; CStr "Bob"; CNum 100; CNum 4];
     [CStr "Email"; CStr "Morning"; CStr "Cy"; CNum 90; CNum 2];
     [CStr "Store"; CStr "Morning"; CStr "Ann"; CNum 60; CNum 4];
     [CNaN; CStr "Evening"; CStr "Bob"; CNum 500; CNum 1]].


(** ** The text report *)

(** [s * n] of a [str]. *)
Fixpoint str_repeat (s : string) (n : nat) : string :=
  match n with
  | O => ""
  | S n' => (s ++ str_repeat s n')%string
  end.

Definition newline : string := String (ascii_of_nat 10) "".

(** [f"{c:,.2f}"] of a cell: text has no format code [f], and a timestamp
    takes the format for a [strftime] pattern, which has no directive.  The
    missing value of a column of sums is the float NaN. *)
Definition format_cell_grouped_2f (c : Cell) : result string :=
  match c with
  | CNum q => Ok (format_fixed true 2 (Fin q))
  | CNaN => Ok (format_fixed true 2 NaN)
  | CStr _ => Raise ValueError
  | CTime _ => Ok ",.2f"
  end.

(** [df.empty]: no row or no column. *)
Definition empty (df : DataFrame) : bool :=
  match rows df, columns df with
  | [], _ => true
  | _, [] => true
  | _, _ => false
  end.

(** One row of a table of the text report, lines 319 and 326. *)
Definition text_table_row (t : DataFrame) (name : string) (r : Row)
  : result string :=
  c <- row_get t r name ;;
  v <- row_get t r "Revenue" ;;
  rev <- format_cell_grouped_2f v ;;
  Ok ("  - " ++ py_str c ++ ": $" ++ rev)%string.

(** A table of the text report, lines 315-319 and 322-326. *)
Definition text_table (title name : string) (t : DataFrame)
  : result (list string) :=
  if empty t then Ok []
  else
    lines <- mapM (text_table_row t name) (rows (head 5 t)) ;;
    Ok ([(newline ++ newline ++ title)%string; str_repeat "-" 70] ++ lines).

Fixpoint text_recs (i : Z) (recs : list string) : list string :=
  match recs with
  | [] => []
  | r :: recs' =>
      (format_int i ++ ". " ++ r)%string :: text_recs (i + 1) recs'
  end.

(** The recommendations of the text report, lines 329-333. *)
Definition text_recommendations (recs : list string) : list string :=
  match recs with
  | [] => []
  | _ :: _ =>
      [(newline ++ newline ++ "EXECUTIVE RECOMMENDATIONS")%string;
       str_repeat "-" 70]
      ++ text_recs 1 recs
  end.

(** The list [report] of [create_text_report], lines 299-337.  [now] is
    [datetime.utcnow().strftime('%Y-%m-%d %H:%M UTC')]. *)
Definition text_report_lines (metrics : Metrics)
    (top_channels top_reps : DataFrame) (recs : list string) (meta : string)
    (now : string) : result (list string) :=
  n_orders <- py_int (Fin (orders metrics)) ;;
  let conv_text := match conv_rate metrics with
                   | Fin c => (format_fixed false 2 (Fin (c * 100)) ++ "%")%string
                   | NaN => "N/A"
                   end in
  channels <- text_table "TOP CHANNELS BY REVENUE" "Channel" top_channels ;;
  reps <- text_table "TOP SALES REPRESENTATIVES" "Sales Rep" top_reps ;;
  Ok ([str_repeat "=" 70;
       "E-COMMERCE GROWTH DASHBOARD - EXECUTIVE SUMMARY";
       str_repeat "=" 70;
       (newline ++ "Generated: " ++ now ++ newline)%string;
       (newline ++ "KEY PERFORMANCE INDICATORS")%string;
       str_repeat "-" 70;
       ("Total Revenue:        $"
        ++ format_fixed true 2 (Fin (revenue metrics)))%string;
       ("Total Orders (est):   " ++ format_int_grouped n_orders)%string;
       ("Average Order Value:  $" ++ format_fixed true 2 (aov metrics))%string;
       ("Conversion Rate:      " ++ conv_text)%string]
      ++ channels ++ reps ++ text_recommendations recs
      ++ [(newline ++ newline ++ str_repeat "-" 70)%string;
          ("Data Source: " ++ meta)%string;
          str_repeat "=" 70]).

(** [create_text_report], lines 298-339. *)
Definition create_text_report (metrics : Metrics)
    (top_channels top_reps : DataFrame) (recs : list string) (meta : string)
    (now : string) : result string :=
  lines <- text_report_lines metrics top_channels top_reps recs meta now ;;
  Ok (join newline lines).

(** The line of the text report for a row of a report table. *)
Definition text_line_of (r : Row) : string :=
  ("  - " ++ py_str (cell_at 0 r) ++ ": $"
   ++ format_fixed true 2 (float_of_numeric (cell_at 1 r)))%string.

(** The line of the PDF page for a row of a report table. *)
Definition pdf_line_of (r : Row) : PdfOp :=
  TextCell 0 5
    (take 40 (py_str (cell_at 0 r)) ++ ": $"
     ++ format_fixed true 0 (float_of_numeric (cell_at 1 r)))%string
    "".

(** ** Sums that a float adds without rounding *)

(** A whole number, or a missing value. *)
Definition whole (c : Cell) : bool :=
  match c with
  | CNum q => Qeq_bool q (inject_Z (Qfloor q))
  | CNaN => true
  | _ => false
  end.

Definition magnitude (s : list Cell) : Q :=
  fold_right (fun c acc => Qabs (amount c) + acc) 0 s.

(** The column, if there, holds whole amounts of total magnitude at most
    2^53: its float sum is exact, in any order. *)
Definition exactly_summed (df : DataFrame) (name : string) : Prop :=
  forallb whole (cells df name) = true
  /\ magnitude (cells df name) <= inject_Z (2 ^ 53).


(** * Properties *)

(** ** Formatting *)

(** The format specifications on sample values. *)
Example format_fixed_examples :
  format_fixed false 2 (Fin 50) = "50.00"%string /\
  format_fixed false 2 (Fin (-1 # 1000)) = "-0.00"%string /\
  format_fixed true 0 (Fin (1234567891 # 1000)) = "1,234,568"%string /\
  format_fixed true 0 (Fin (5 # 2)) = "2"%string /\
  format_fixed true 0 (Fin (7 # 2)) = "4"%string /\
  format_fixed true 2 (Fin (100001 # 100)) = "1,000.01"%string /\
  format_fixed false 1 (Fin 250) = "250.0"%string /\
  format_int_grouped (-1234567) = "-1,234,567"%string /\
  lower "Return_Flag" = "return_flag"%string /\
  take 3 "abcdef" = "abc"%string.
Proof. vm_compute. repeat split. Qed.

(** ** The result monad and columns *)

Lemma Qlt_bool_iff (a b : Q) : Qlt_bool a b = true <-> a < b.
Proof.
  unfold Qlt_bool. rewrite negb_true_iff. split; intro H.
  - apply Qnot_le_lt. intro Hle. apply Qle_bool_iff in Hle. congruence.
  - destruct (Qle_bool b a) eqn:E; [|reflexivity].
    apply Qle_bool_iff in E. exfalso. exact (Qlt_not_le _ _ H E).
Qed.

Lemma Qlt_bool_false (a b : Q) : Qlt_bool a b = false <-> ~ a < b.
Proof.
  rewrite <- Qlt_bool_iff. destruct (Qlt_bool a b); split; congruence.
Qed.

Lemma has_column_index (df : DataFrame) (name : string) :
  has_column df name = true ->
  exists i, index_of name (columns df) = Some i.
Proof.
  unfold has_column. induction (columns df) as [|n ns IH]; simpl.
  - discriminate.
  - destruct (String.eqb name n); [eauto|]. simpl. intro H.
    destruct (IH H) as [i Hi]. rewrite Hi. simpl. eauto.
Qed.

Lemma has_column_none (df : DataFrame) (name : string) :
  has_column df name = false -> index_of name (columns df) = None.
Proof.
  unfold has_column. induction (columns df) as [|n ns IH]; simpl.
  - reflexivity.
  - destruct (String.eqb name n); [discriminate|]. simpl. intro H.
    rewrite (IH H). reflexivity.
Qed.

Lemma index_has_column (df : DataFrame) (name : string) (i : nat) :
  index_of name (columns df) = Some i -> has_column df name = true.
Proof.
  intro H. destruct (has_column df name) eqn:E; [reflexivity|].
  apply has_column_none in E. congruence.
Qed.

Lemma find_column_ok (df : DataFrame) (name : string) (i : nat) :
  index_of name (columns df) = Some i -> find_column df name = Ok i.
Proof.
  unfold find_column. intros ->. reflexivity.
Qed.

Lemma column_cells (df : DataFrame) (name : string) :
  has_column df name = true -> column df name = Ok (cells df name).
Proof.
  intro H. destruct (has_column_index _ _ H) as [i Hi].
  unfold column, cells. rewrite Hi. reflexivity.
Qed.

Lemma cells_no_rows (df : DataFrame) (name : string) :
  len df = O -> cells df name = [].
Proof.
  unfold len, cells. intro H. apply length_zero_iff_nil in H. rewrite H.
  destruct (index_of name (columns df)); reflexivity.
Qed.

(** ** Metrics *)

Lemma series_sum_from (xs : list pyfloat) (acc : Q) :
  fold_left float_add xs acc == acc + series_sum xs.
Proof.
  unfold series_sum. revert acc.
  induction xs as [|x xs IH]; intro acc; simpl.
  - ring.
  - rewrite IH. rewrite (IH (float_add 0 x)).
    destruct x; cbn [float_add]; ring.
Qed.

Lemma astype_float_ok (s : list Cell) (xs : list pyfloat) :
  astype_float s = Ok xs ->
  forallb coerces s = true /\ series_sum xs == lenient_sum s.
Proof.
  unfold astype_float. revert xs.
  induction s as [|c s IH]; intros xs H.
  - injection H as <-. split; reflexivity.
  - cbn [mapM] in H.
    destruct (float_of_cell c) as [x|e] eqn:Ec; cbn [bind] in H; [|discriminate].
    destruct (mapM float_of_cell s) as [ys|e] eqn:Es; cbn [bind] in H;
      [|discriminate].
    injection H as <-. destruct (IH ys eq_refl) as [Hall Hsum]. split.
    + cbn [forallb]. unfold coerces at 1. rewrite Ec. exact Hall.
    + unfold series_sum. cbn [fold_left]. rewrite series_sum_from, Hsum.
      unfold lenient_sum. cbn [fold_right]. unfold contribution at 2.
      rewrite Ec. destruct x; cbn [float_add]; ring.
Qed.

Lemma astype_float_raise (s : list Cell) (e : exn) :
  astype_float s = Raise e -> forallb coerces s = false.
Proof.
  unfold astype_float.
  induction s as [|c s IH]; intro H; [discriminate|].
  cbn [mapM] in H. cbn [forallb]. unfold coerces at 1.
  destruct (float_of_cell c) as [x|e'] eqn:Ec; cbn [bind] in H; [|reflexivity].
  destruct (mapM float_of_cell s) as [ys|e'] eqn:Es; cbn [bind] in H;
    [discriminate|].
  exact (IH H).
Qed.

(** [safe_sum] is the strict total: the sum of the column when every value
    coerces, 0 otherwise. *)
Lemma safe_sum_strict (s : list Cell) : safe_sum s == strict_sum s.
Proof.
  unfold safe_sum, strict_sum.
  destruct (astype_float s) as [xs|e] eqn:E.
  - destruct (astype_float_ok _ _ E) as [-> Hs]. exact Hs.
  - rewrite (astype_float_raise _ _ E). reflexivity.
Qed.

Lemma guarded_sum (df : DataFrame) (name : string) :
  (if has_column df name then safe_sum_of df name else Ok 0)
  = Ok (if has_column df name && negb (duplicated df name)
        then safe_sum (cells df name)
        else 0).
Proof.
  unfold safe_sum_of.
  destruct (has_column df name) eqn:E; [|reflexivity].
  destruct (duplicated df name); [reflexivity|].
  rewrite (column_cells _ _ E). reflexivity.
Qed.

Lemma guarded_sum_total (df : DataFrame) (name : string) :
  (if has_column df name && negb (duplicated df name)
   then safe_sum (cells df name)
   else 0)
  == column_total df name.
Proof.
  unfold column_total.
  destruct (has_column df name && negb (duplicated df name)); [|reflexivity].
  apply safe_sum_strict.
Qed.

Lemma Q_of_nat_pos (n : nat) : 0 < Q_of_nat n <-> (0 < n)%nat.
Proof.
  unfold Q_of_nat, Qlt. simpl. lia.
Qed.

Lemma Qlt_bool_compat (a b c d : Q) :
  a == c -> b == d -> Qlt_bool a b = Qlt_bool c d.
Proof.
  intros Hac Hbd.
  destruct (Qlt_bool a b) eqn:E1, (Qlt_bool c d) eqn:E2; try reflexivity.
  - apply Qlt_bool_iff in E1. apply Qlt_bool_false in E2.
    rewrite Hac, Hbd in E1. contradiction.
  - apply Qlt_bool_iff in E2. apply Qlt_bool_false in E1.
    rewrite <- Hac, <- Hbd in E2. contradiction.
Qed.

(** The metrics follow the formulas, over the strict column totals. *)
Lemma metrics_follow_strict (df : DataFrame) :
  metrics_follow column_total df.
Proof.
  unfold metrics_follow, compute_metrics.
  rewrite !guarded_sum. cbn [bind].
  pose proof (guarded_sum_total df "Revenue") as Hrev.
  pose proof (guarded_sum_total df "Conversions") as Hconv.
  set (rev := if has_column df "Revenue" && _ then _ else _) in *.
  set (conv := if has_column df "Conversions" && _ then _ else _) in *.
  rewrite <- (Qlt_bool_compat 0 conv 0 (column_total df "Conversions"))
    by (reflexivity || exact Hconv).
  set (ord := if Qlt_bool 0 conv then conv else Q_of_nat (len df)).
  assert (Hord : ord == (if Qlt_bool 0 conv
                         then column_total df "Conversions"
                         else Q_of_nat (len df))).
  { subst ord. destruct (Qlt_bool 0 conv); [exact Hconv|reflexivity]. }
  assert (Hrate : float_eq
            (if (0 <? len df)%nat && has_column df "Conversions"
             then Fin (conv / Q_of_nat (len df)) else NaN)
            (if has_column df "Conversions" && (0 <? len df)%nat
             then Fin (column_total df "Conversions" / Q_of_nat (len df))
             else NaN)).
  { rewrite andb_comm.
    destruct (has_column df "Conversions" && (0 <? len df)%nat); simpl;
      [rewrite Hconv; reflexivity|exact I]. }
  destruct (Qlt_bool 0 ord) eqn:Eo.
  - cbn [bind]. eexists. split; [reflexivity|]. cbn.
    apply Qlt_bool_iff in Eo.
    repeat split; try assumption; try reflexivity; try contradiction.
  - apply Qlt_bool_false in Eo.
    assert (Hlen : len df = O).
    { subst ord. destruct (Qlt_bool 0 conv) eqn:Ec.
      - apply Qlt_bool_iff in Ec. contradiction.
      - destruct (len df) eqn:El; [reflexivity|].
        exfalso. apply Eo. apply Q_of_nat_pos. lia. }
    destruct (has_column df "Average Order Size") eqn:Ea.
    + rewrite (column_cells _ _ Ea), (cells_no_rows _ _ Hlen). cbn.
      eexists. split; [reflexivity|]. cbn.
      repeat split; try assumption; try reflexivity; try contradiction;
        try discriminate.
    + cbn [bind]. eexists. split; [reflexivity|]. cbn.
      repeat split; try assumption; try reflexivity; try contradiction;
        try discriminate.
Qed.

(** C1 (amended): for every dataset [compute_metrics] returns, without
    raising, the record of the formulas: revenue is the total of the Revenue
    column, where the total of a column is the sum of its values when one
    column bears the name and every one of its values coerces to a number
    (missing values skipped), and 0 when the column is absent, when several
    columns bear the name, or when any value fails to coerce; orders is the
    total of Conversions when positive, else the row count; aov is
    revenue / orders when orders > 0, else the mean of Average Order Size
    when one column bears that name, else 0 when none does; conv_rate is
    the Conversions total over the row count when the column is present and
    there are rows, else undefined. *)
Theorem compute_metrics_formulas (df : DataFrame) :
  metrics_follow column_total df.
Proof.
  exact (metrics_follow_strict df).
Qed.

(** C8: whenever [orders] is positive, the average order value is
    revenue / orders, so that aov * orders gives back revenue (exactly, over
    the rationals). *)
Theorem aov_times_orders (df : DataFrame) (m : Metrics) :
  compute_metrics df = Ok m ->
  0 < orders m ->
  exists a, aov m = Fin a /\ a * orders m == revenue m.
Proof.
  intros Hm Hpos.
  destruct (metrics_follow_strict df) as (m' & Hm' & _ & _ & Haov & _).
  rewrite Hm in Hm'. injection Hm' as <-.
  exists (revenue m / orders m). split; [exact (Haov Hpos)|].
  field. intro H0. rewrite H0 in Hpos. exact (Qlt_irrefl 0 Hpos).
Qed.

(** ** Recommendations *)

Lemma bind_ok {A B : Type} (m : result A) (k : A -> result B) (b : B) :
  bind m k = Ok b -> exists a, m = Ok a /\ k a = Ok b.
Proof.
  destruct m as [a|e]; simpl; [eauto|discriminate].
Qed.

Ltac bind_inv H :=
  let a := fresh "a" in
  let Ha := fresh "H" a in
  apply bind_ok in H; destruct H as (a & Ha & H).

Lemma existsb_In_eqb (x : string) (l : list string) :
  existsb (String.eqb x) l = true <-> In x l.
Proof.
  rewrite existsb_exists. split.
  - intros (y & Hy & E). apply String.eqb_eq in E. subst. exact Hy.
  - intro H. exists x. split; [exact H|apply String.eqb_refl].
Qed.

Lemma inventory_reminder_none (df : DataFrame) :
  inventory_reminder df = []
  <-> exists c, In c (columns df) /\ In (lower c) inventory_columns.
Proof.
  unfold inventory_reminder.
  destruct (existsb _ (columns df)) eqn:E.
  - split; [intros _|reflexivity].
    apply existsb_exists in E. destruct E as (c & Hc & E).
    exists c. split; [exact Hc|]. apply existsb_In_eqb. exact E.
  - split; [discriminate|]. intros (c & Hc & Hin). exfalso.
    apply not_true_iff_false in E. apply E.
    apply existsb_exists. exists c. split; [exact Hc|].
    apply existsb_In_eqb. exact Hin.
Qed.

Lemma inventory_reminder_note (df : DataFrame) :
  inventory_reminder df = [inventory_note]
  <-> forall c, In c (columns df) -> ~ In (lower c) inventory_columns.
Proof.
  split.
  - intros H c Hc Hin.
    assert (E : inventory_reminder df = []).
    { apply inventory_reminder_none. eauto. }
    rewrite E in H. discriminate.
  - intro H. unfold inventory_reminder.
    destruct (existsb _ (columns df)) eqn:E; [|reflexivity].
    apply existsb_exists in E. destruct E as (c & Hc & E).
    apply existsb_In_eqb in E. exfalso. exact (H c Hc E).
Qed.

(** C10: the inventory reminder is withheld exactly when some column
    name, lowercased in full, is one of the six listed names; a name that
    only contains one of them (Stock_Quantity, Return_Reason) does not
    withhold it, whatever the rows, while Return_Flag does. *)
Theorem inventory_note_needs_exact_name :
  (forall df,
     inventory_reminder df = []
     <-> exists c, In c (columns df) /\ In (lower c) inventory_columns)
  /\ (forall df,
        inventory_reminder df = [inventory_note]
        <-> forall c, In c (columns df) -> ~ In (lower c) inventory_columns)
  /\ (forall rs,
        make_recommendations
          (mkDataFrame ["Product_ID"; "Stock_Quantity"; "Return_Reason"] rs)
        = Ok [inventory_note])
  /\ (forall rs,
        make_recommendations (mkDataFrame ["Product_ID"; "Return_Flag"] rs)
        = Ok []).
Proof.
  split; [exact inventory_reminder_none|].
  split; [exact inventory_reminder_note|].
  split; intro rs; reflexivity.
Qed.

(** The rules before the reminder. *)
Lemma channel_insight_shape (df : DataFrame) (msgs : list string) :
  channel_insight df = Ok msgs ->
  msgs = []
  \/ exists best best_rpc worst worst_rpc,
       msgs = [msg_focus best best_rpc; msg_review worst worst_rpc].
Proof.
  unfold channel_insight.
  destruct (has_column df "Channel" && has_column df "Revenue").
  - intro H. do 11 bind_inv H. injection H as <-. right. eauto.
  - intro H. injection H as <-. left. reflexivity.
Qed.

(** Without a Channel or a Revenue column the channel rule gives no
    message. *)
Lemma channel_insight_guard (df : DataFrame) :
  has_column df "Channel" = false \/ has_column df "Revenue" = false ->
  channel_insight df = Ok [].
Proof.
  unfold channel_insight. intros [-> | ->]; [reflexivity|].
  rewrite andb_false_r. reflexivity.
Qed.

Lemma time_of_day_insight_shape (df : DataFrame) (msgs : list string) :
  time_of_day_insight df = Ok msgs ->
  msgs = [] \/ exists top, msgs = [msg_peak top].
Proof.
  unfold time_of_day_insight.
  destruct (has_column df "Time of Day" && has_column df "Revenue").
  - intro H. do 4 bind_inv H. injection H as <-. right. eauto.
  - intro H. injection H as <-. left. reflexivity.
Qed.

Lemma sales_rep_coaching_shape (df : DataFrame) (msgs : list string) :
  sales_rep_coaching df = Ok msgs ->
  msgs = [] \/ exists small, msgs = [msg_coaching small].
Proof.
  unfold sales_rep_coaching.
  destruct (has_column df "Sales Rep" && has_column df "Revenue").
  - intro H. do 2 bind_inv H. destruct a0 as [top3|].
    + do 2 bind_inv H. injection H as <-. right. eauto.
    + injection H as <-. left. reflexivity.
  - intro H. injection H as <-. left. reflexivity.
Qed.

(** When [make_recommendations] returns: the channel pair is absent if
    Channel or Revenue is, and the inventory note is in the list exactly
    when no column name, lowercased, is an inventory name. *)
Lemma recommendations_when_returned (df : DataFrame) (recs : list string) :
  make_recommendations df = Ok recs ->
  (has_column df "Channel" = false \/ has_column df "Revenue" = false ->
   forall channel rpc,
     ~ In (msg_focus channel rpc) recs /\ ~ In (msg_review channel rpc) recs)
  /\ (In inventory_note recs
      <-> forall c, In c (columns df) -> ~ In (lower c) inventory_columns).
Proof.
  unfold make_recommendations. intro H. do 3 bind_inv H. injection H as <-.
  pose proof (time_of_day_insight_shape _ _ Ha0) as Ht.
  pose proof (sales_rep_coaching_shape _ _ Ha1) as Hc.
  assert (Hrest : forall m, In m (a0 ++ a1) ->
            (exists x, m = msg_peak x) \/ (exists x, m = msg_coaching x)).
  { intros m Hm. apply in_app_or in Hm.
    destruct Hm as [Hm|Hm];
      [destruct Ht as [->|[x ->]]|destruct Hc as [->|[x ->]]];
      try contradiction; destruct Hm as [<-|[]]; eauto. }
  split.
  - intros Hno channel rpc. rewrite (channel_insight_guard _ Hno) in Ha.
    injection Ha as <-. cbn [app]. rewrite app_assoc.
    split; intro Hin; apply in_app_or in Hin; destruct Hin as [Hin|Hin].
    + destruct (Hrest _ Hin) as [[x E]|[x E]]; discriminate E.
    + unfold inventory_reminder in Hin.
      destruct (existsb _ (columns df)); [contradiction|].
      destruct Hin as [E|[]]; discriminate E.
    + destruct (Hrest _ Hin) as [[x E]|[x E]]; discriminate E.
    + unfold inventory_reminder in Hin.
      destruct (existsb _ (columns df)); [contradiction|].
      destruct Hin as [E|[]]; discriminate E.
  - rewrite <- inventory_reminder_note. split.
    + intro Hin. apply in_app_or in Hin. destruct Hin as [Hin|Hin].
      { destruct (channel_insight_shape _ _ Ha) as [->|(b & rb & w & rw & ->)];
          [contradiction|].
        destruct Hin as [E|[E|[]]]; discriminate E. }
      rewrite app_assoc in Hin. apply in_app_or in Hin.
      destruct Hin as [Hin|Hin].
      { destruct (Hrest _ Hin) as [[x E]|[x E]]; discriminate E. }
      unfold inventory_reminder in *.
      destruct (existsb _ (columns df)); [contradiction|reflexivity].
    + intros ->. apply in_or_app. right. apply in_or_app. right.
      apply in_or_app. right. left. reflexivity.
Qed.

(** C2 (amended): on the four-row scenario the metrics are revenue 500,
    orders 10, aov 50 and conv_rate 2.5; channel A has revenue 150 over 3
    conversions and channel B 350 over 7, 50 per conversion each; both sorts
    keep the tied groups in group order, and the recommendations name
    channel A in the invest-more message and again in the review message. *)
Theorem scenario_metrics_and_tie :
  (exists m,
     compute_metrics df_scenario = Ok m
     /\ revenue m == 500 /\ orders m == 10
     /\ float_eq (aov m) (Fin 50) /\ float_eq (conv_rate m) (Fin (5 # 2)))
  /\ (exists ch,
        channel_table df_scenario = Ok ch
        /\ cells ch "Channel" = [CStr "A"; CStr "B"]
        /\ amounts_are (cells ch "Revenue") [150; 350]
        /\ amounts_are (cells ch "Conversions") [3; 7]
        /\ amounts_are (cells ch "Rev_per_Conv") [50; 50])
  /\ make_recommendations df_scenario
     = Ok [msg_focus "A" "50.00"; msg_review "A" "50.00"; inventory_note].
Proof.
  split; [|split].
  - eexists. split; [vm_compute; reflexivity|].
    cbn. repeat split.
  - eexists. split; [vm_compute; reflexivity|].
    split; [reflexivity|].
    repeat split; vm_compute cells;
      repeat (constructor; [eexists; split; reflexivity|]); constructor.
  - vm_compute. reflexivity.
Qed.

(** The channel funnel tests for the Channel column alone: without a
    Revenue column its aggregation raises. *)
Lemma channel_funnel_needs_revenue (df : DataFrame) :
  has_column df "Channel" = true ->
  has_column df "Revenue" = false ->
  channel_funnel df = Raise (KeyError "Revenue").
Proof.
  intros Hc Hr. unfold channel_funnel. rewrite Hc.
  destruct (has_column_index _ _ Hc) as [ki Hki].
  unfold groupby_agg. rewrite (find_column_ok _ _ _ Hki). cbn [bind mapM].
  cbn [fst snd]. unfold find_column at 1.
  rewrite (has_column_none _ _ Hr). reflexivity.
Qed.

(** C3 (the code at the failing input): on a dataset with Channel, Time of
    Day and Customer Type columns and no Revenue column, the channel funnel,
    the time-of-day breakdown, the customer segmentation and the report
    table of channels raise [KeyError], where the sales-rep section, which
    tests for both of its columns, shows its message. *)
Theorem sections_raise_without_revenue :
  channel_funnel df_no_revenue = Raise (KeyError "Revenue")
  /\ time_of_day_section df_no_revenue = Raise (KeyError "Revenue")
  /\ customer_segmentation df_no_revenue = Raise (KeyError "Revenue")
  /\ top_channels df_no_revenue = Raise (KeyError "Revenue")
  /\ sales_rep_section df_no_revenue
     = Ok (Info "Sales Rep analysis requires Sales Rep & Revenue columns.").
Proof.
  repeat split.
Qed.

(** C6 (the code at the failing input): on a dataset with the columns
    Channel and Revenue, none of them an inventory name, whose only row has
    no channel, the channel table has no group and [make_recommendations]
    raises [IndexError] in the channel rule: it returns no list, hence no
    inventory note, where the reminder rule alone gives the note.  The same
    happens on a selection without rows. *)
Theorem recommendations_raise_without_groups :
  make_recommendations df_unattributed = Raise IndexError
  /\ inventory_reminder df_unattributed = [inventory_note]
  /\ make_recommendations df_header_only = Raise IndexError
  /\ inventory_reminder df_header_only = [inventory_note].
Proof.
  repeat split.
Qed.

(** ** The report *)

Lemma no_rows_len (df : DataFrame) : rows df = [] -> len df = O.
Proof. unfold len. intros ->. reflexivity. Qed.

Lemma compute_metrics_no_rows (df : DataFrame) :
  rows df = [] ->
  compute_metrics df
  = Ok (mkMetrics 0 0
          (if has_column df "Average Order Size" then NaN else Fin 0) NaN 0).
Proof.
  intro H. pose proof (no_rows_len _ H) as Hlen.
  unfold compute_metrics. rewrite !guarded_sum.
  rewrite !(cells_no_rows _ _ Hlen), Hlen.
  assert (E : forall b : bool, (if b then safe_sum [] else 0) = 0)
    by (intros []; reflexivity).
  rewrite !E. cbn [bind].
  destruct (has_column df "Conversions");
    cbn - [has_column column];
    (destruct (has_column df "Average Order Size") eqn:Ea;
     [rewrite (column_cells _ _ Ea), (cells_no_rows _ _ Hlen)|]);
    reflexivity.
Qed.



(** ** Filters *)

Lemma cell_eqb_refl (c : Cell) : cell_eqb c c = true.
Proof.
  destruct c; simpl;
    [apply Qeq_bool_refl|apply String.eqb_refl|apply Z.eqb_refl|reflexivity].
Qed.

Lemma cell_eqb_sym (a b : Cell) : cell_eqb a b = cell_eqb b a.
Proof.
  destruct a, b; simpl; try reflexivity;
    [apply Qeq_bool_comm|apply String.eqb_sym|apply Z.eqb_sym].
Qed.

Lemma cell_eqb_trans (a b c : Cell) :
  cell_eqb a b = true -> cell_eqb b c = true -> cell_eqb a c = true.
Proof.
  destruct a, b, c; simpl; try discriminate; try reflexivity.
  - apply Qeq_bool_trans.
  - intros H1 H2. apply String.eqb_eq in H1, H2. subst. apply String.eqb_refl.
  - intros H1 H2. apply Z.eqb_eq in H1, H2. subst. apply Z.eqb_refl.
Qed.

Lemma isin_filter (p : Cell -> bool) (l : list Cell) (c : Cell) :
  (forall d, cell_eqb c d = true -> p d = true) ->
  isin (filter p l) c = isin l c.
Proof.
  intro Hp. unfold isin. induction l as [|d l IH]; simpl; [reflexivity|].
  destruct (p d) eqn:E; simpl.
  - rewrite IH. reflexivity.
  - rewrite IH. destruct (cell_eqb c d) eqn:Ecd; [|reflexivity].
    rewrite (Hp d Ecd) in E. discriminate.
Qed.


Lemma isin_self (l : list Cell) (c : Cell) : In c l -> isin l c = true.
Proof.
  intro H. unfold isin. apply existsb_exists. exists c.
  split; [exact H|apply cell_eqb_refl].
Qed.







(** ** Group-by *)

Lemma occurrences_insert (leb : Cell -> Cell -> bool) (x c : Cell)
    (l : list Cell) :
  occurrences (insert_sorted leb x l) c = occurrences (x :: l) c.
Proof.
  unfold occurrences. induction l as [|y l IH]; [reflexivity|].
  cbn [insert_sorted]. destruct (leb x y); [reflexivity|].
  cbn [filter] in *.
  destruct (cell_eqb c y), (cell_eqb c x); cbn [List.length] in *;
    rewrite IH; reflexivity.
Qed.

Lemma occurrences_sort (leb : Cell -> Cell -> bool) (l : list Cell) (c : Cell) :
  occurrences (stable_sort leb l) c = occurrences l c.
Proof.
  induction l as [|x l IH]; [reflexivity|].
  cbn [stable_sort fold_right]. fold (stable_sort leb l).
  rewrite occurrences_insert. unfold occurrences in *. cbn [filter].
  destruct (cell_eqb c x); cbn [List.length]; rewrite IH; reflexivity.
Qed.

Lemma occurrences_filter (p : Cell -> bool) (l : list Cell) (c : Cell) :
  (forall d, cell_eqb c d = true -> p d = true) ->
  occurrences (filter p l) c = occurrences l c.
Proof.
  intro Hp. unfold occurrences. induction l as [|d l IH]; [reflexivity|].
  cbn [filter]. destruct (cell_eqb c d) eqn:E.
  - rewrite (Hp d E). cbn [filter]. rewrite E. cbn [List.length].
    rewrite IH. reflexivity.
  - destruct (p d); cbn [filter]; [rewrite E|]; exact IH.
Qed.

Lemma occurrences_filter_out (p : Cell -> bool) (l : list Cell) (c : Cell) :
  (forall d, cell_eqb c d = true -> p d = false) ->
  occurrences (filter p l) c = O.
Proof.
  intro Hp. unfold occurrences. induction l as [|d l IH]; [reflexivity|].
  cbn [filter]. destruct (p d) eqn:E; [|exact IH].
  cbn [filter]. destruct (cell_eqb c d) eqn:Ec; [|exact IH].
  rewrite (Hp d Ec) in E. discriminate.
Qed.

Lemma occurrences_unique (l : list Cell) (c : Cell) :
  occurrences (unique l) c = if isin l c then 1%nat else O.
Proof.
  induction l as [|a l IH]; [reflexivity|].
  cbn [unique]. unfold isin. cbn [existsb].
  unfold occurrences at 1. cbn [filter].
  destruct (cell_eqb c a) eqn:E; cbn [orb List.length].
  - f_equal. apply occurrences_filter_out. intros d Hd.
    apply negb_false_iff. rewrite cell_eqb_sym in E.
    apply (cell_eqb_trans a c d E Hd).
  - fold (occurrences (filter (fun d => negb (cell_eqb a d)) (unique l)) c).
    rewrite occurrences_filter; [exact IH|].
    intros d Hd. apply negb_true_iff.
    destruct (cell_eqb a d) eqn:Ead; [|reflexivity].
    rewrite cell_eqb_sym in Ead.
    rewrite (cell_eqb_trans c d a Hd Ead) in E. discriminate.
Qed.

Lemma cell_eqb_isna (c d : Cell) :
  cell_eqb c d = true -> isna d = isna c.
Proof.
  destruct c, d; simpl; congruence.
Qed.

(** Each key present in the column heads one group; the missing key heads
    none. *)
Lemma occurrences_group_keys (col : list Cell) (c : Cell) :
  In c col ->
  occurrences (group_keys col) c = if isna c then O else 1%nat.
Proof.
  intro Hc. unfold group_keys.
  rewrite occurrences_sort, occurrences_unique.
  destruct (isna c) eqn:En.
  - destruct (isin _ c) eqn:Ei; [|reflexivity].
    unfold isin in Ei. apply existsb_exists in Ei.
    destruct Ei as (d & Hd & Ed). apply filter_In in Hd.
    destruct Hd as [_ Hd]. rewrite (cell_eqb_isna _ _ Ed), En in Hd.
    discriminate.
  - rewrite isin_filter.
    + rewrite (isin_self _ _ Hc). reflexivity.
    + intros d Ed. rewrite (cell_eqb_isna _ _ Ed), En. reflexivity.
Qed.

Lemma group_keys_present (col : list Cell) (k : Cell) :
  In k (group_keys col) -> isna k = false.
Proof.
  intro H. destruct (isna k) eqn:En; [|reflexivity]. exfalso.
  assert (Hocc : occurrences (group_keys col) k <> O).
  { unfold occurrences. intro H0. apply length_zero_iff_nil in H0.
    assert (Hin : In k (filter (cell_eqb k) (group_keys col))).
    { apply filter_In. split; [exact H|apply cell_eqb_refl]. }
    rewrite H0 in Hin. exact Hin. }
  apply Hocc. unfold group_keys.
  rewrite occurrences_sort, occurrences_unique.
  destruct (isin _ k) eqn:Ei; [|reflexivity].
  unfold isin in Ei. apply existsb_exists in Ei.
  destruct Ei as (d & Hd & Ed). apply filter_In in Hd.
  destruct Hd as [_ Hd]. rewrite (cell_eqb_isna _ _ Ed), En in Hd.
  discriminate.
Qed.

Lemma sum_over_ext (f g : Cell -> Q) (ks : list Cell) :
  (forall k, f k == g k) -> sum_over f ks == sum_over g ks.
Proof.
  intro H. induction ks as [|k ks IH]; [reflexivity|].
  cbn [sum_over fold_right]. fold (sum_over f ks) (sum_over g ks).
  rewrite H, IH. reflexivity.
Qed.

Lemma sum_over_indicator (c : Cell) (x : Q) (g : Cell -> Q) (ks : list Cell) :
  sum_over (fun k => (if cell_eqb c k then x else 0) + g k) ks
  == Q_of_nat (occurrences ks c) * x + sum_over g ks.
Proof.
  unfold occurrences. induction ks as [|k ks IH].
  - unfold sum_over, Q_of_nat.
    cbn [fold_right filter List.length Z.of_nat inject_Z]. ring.
  - cbn [sum_over fold_right filter].
    fold (sum_over (fun k => (if cell_eqb c k then x else 0) + g k) ks).
    fold (sum_over g ks). rewrite IH.
    destruct (cell_eqb c k); cbn [List.length].
    + unfold Q_of_nat. rewrite Nat2Z.inj_succ, <- Z.add_1_r, inject_Z_plus.
      ring.
    + ring.
Qed.

Lemma total_cons (c : Cell) (l : list Cell) :
  total (c :: l) = amount c + total l.
Proof. reflexivity. Qed.

(** The groups partition the rows whose key is present. *)
Lemma groups_partition (ki ri : nat) (rs : list Row) (ks : list Cell) :
  (forall r, In r rs ->
     occurrences ks (cell_at ki r)
     = if isna (cell_at ki r) then O else 1%nat) ->
  sum_over (fun k =>
              total (map (cell_at ri)
                       (filter (fun r => cell_eqb (cell_at ki r) k) rs))) ks
  == total (map (cell_at ri)
              (filter (fun r => negb (isna (cell_at ki r))) rs)).
Proof.
  induction rs as [|r rs IH]; intro Hocc.
  - cbn [filter map total fold_right]. clear Hocc.
    induction ks as [|k ks IHk]; [reflexivity|].
    cbn [sum_over fold_right]. fold (sum_over (fun _ => 0) ks).
    rewrite IHk. ring.
  - rewrite (sum_over_ext _
      (fun k =>
         (if cell_eqb (cell_at ki r) k then amount (cell_at ri r) else 0)
         + total (map (cell_at ri)
                    (filter (fun r => cell_eqb (cell_at ki r) k) rs)))).
    + rewrite sum_over_indicator, IH
        by (intros r' Hr'; apply Hocc; right; exact Hr').
      rewrite (Hocc r (or_introl eq_refl)). cbn [filter].
      destruct (isna (cell_at ki r)); cbn [negb map]; rewrite ?total_cons.
      * change (Q_of_nat 0) with 0. ring.
      * change (Q_of_nat 1) with 1. ring.
    + intro k. cbn [filter].
      destruct (cell_eqb (cell_at ki r) k); cbn [map]; rewrite ?total_cons;
        ring.
Qed.

Lemma mapM_Forall2 {A B : Type} (f : A -> result B) (P : A -> B -> Prop)
    (l : list A) :
  (forall a, In a l -> exists b, f a = Ok b /\ P a b) ->
  exists bs, mapM f l = Ok bs /\ Forall2 P l bs.
Proof.
  induction l as [|a l IH]; intro H.
  - exists []. split; [reflexivity|constructor].
  - destruct (H a (or_introl eq_refl)) as (b & Hb & Pb).
    destruct IH as (bs & Hbs & Pbs).
    { intros a' Ha'. apply H. right. exact Ha'. }
    exists (b :: bs). cbn [mapM]. rewrite Hb. cbn [bind]. rewrite Hbs.
    split; [reflexivity|constructor; assumption].
Qed.

Lemma Forall2_right {A B : Type} (P : B -> Prop) (l : list A) (bs : list B) :
  Forall2 (fun _ b => P b) l bs -> Forall P bs.
Proof.
  induction 1; constructor; assumption.
Qed.

Lemma sum_from_numeric (l : list Cell) (a : Q) :
  forallb numeric l = true ->
  exists q, sum_from (CNum a) l = Ok (CNum q) /\ q == a + total l.
Proof.
  revert a. induction l as [|c l IH]; intros a H.
  - exists a. split; [reflexivity|]. cbn. ring.
  - cbn [forallb] in H. apply andb_true_iff in H. destruct H as [Hc Hl].
    destruct c as [q|x|t|]; try discriminate; cbn [sum_from isna obj_add bind].
    + destruct (IH (a + q) Hl) as (q' & Hq' & E). exists q'.
      split; [exact Hq'|]. rewrite total_cons, E. cbn [amount]. ring.
    + destruct (IH a Hl) as (q' & Hq' & E). exists q'.
      split; [exact Hq'|]. rewrite total_cons, E. cbn [amount]. ring.
Qed.

Lemma agg_sum_numeric (l : list Cell) :
  forallb numeric l = true ->
  exists q, agg_sum l = Ok (CNum q) /\ q == total l.
Proof.
  induction l as [|c l IH]; intro H.
  - exists 0. split; reflexivity.
  - cbn [forallb] in H. apply andb_true_iff in H. destruct H as [Hc Hl].
    destruct c as [q|x|t|]; try discriminate; cbn [agg_sum].
    + destruct (sum_from_numeric l q Hl) as (q' & Hq' & E). exists q'.
      split; [exact Hq'|]. rewrite total_cons. exact E.
    + destruct (IH Hl) as (q' & Hq' & E). exists q'.
      split; [exact Hq'|]. rewrite total_cons, E. cbn [amount]. ring.
Qed.

Lemma aggregate_numeric (f : AggFunc) (l : list Cell) :
  forallb numeric l = true -> exists c, aggregate f l = Ok c.
Proof.
  intro H. destruct f; cbn [aggregate].
  - destruct (agg_sum_numeric l H) as (q & Hq & _). eauto.
  - eauto.
  - unfold agg_mean.
    destruct (mapM_Forall2 number_of_cell (fun _ _ => True) l) as (xs & -> & _).
    { intros c Hc. rewrite forallb_forall in H. specialize (H c Hc).
      destruct c; try discriminate; cbn; eauto. }
    cbn [bind]. eauto.
Qed.

Lemma numeric_group (j : nat) (p : Row -> bool) (rs : list Row) :
  forallb numeric (map (cell_at j) rs) = true ->
  forallb numeric (map (cell_at j) (filter p rs)) = true.
Proof.
  rewrite !forallb_forall. intros H c Hc. apply H.
  apply in_map_iff in Hc. destruct Hc as (r & <- & Hr).
  apply filter_In in Hr. apply in_map. exact (proj1 Hr).
Qed.

Lemma numeric_column_cells (df : DataFrame) (name : string) :
  numeric_column df name = true ->
  exists j, index_of name (columns df) = Some j
            /\ forallb numeric (map (cell_at j) (rows df)) = true.
Proof.
  unfold numeric_column. intro H. apply andb_true_iff in H.
  destruct H as [Hc Hn]. destruct (has_column_index _ _ Hc) as [j Hj].
  exists j. split; [exact Hj|]. unfold cells in Hn. rewrite Hj in Hn.
  exact Hn.
Qed.

Lemma safe_sum_numeric (s : list Cell) :
  forallb numeric s = true -> safe_sum s == total s.
Proof.
  intro H. rewrite safe_sum_strict. unfold strict_sum.
  assert (Hc : forallb coerces s = true).
  { rewrite forallb_forall in *. intros c Hc. specialize (H c Hc).
    destruct c; try discriminate; reflexivity. }
  rewrite Hc. clear Hc. induction s as [|c s IH]; [reflexivity|].
  cbn [forallb] in H. apply andb_true_iff in H. destruct H as [Hc Hs].
  unfold lenient_sum. cbn [fold_right]. fold (lenient_sum s).
  rewrite total_cons, (IH Hs).
  destruct c; try discriminate; reflexivity.
Qed.

(** Aggregating numeric columns by group succeeds, and the sums of Revenue
    are numbers that total the Revenue of the rows with a key. *)
Lemma groupby_numeric (df : DataFrame) (key : string)
    (specs : list NamedAgg) :
  has_column df key = true ->
  key <> "Revenue" ->
  numeric_column df "Revenue" = true ->
  forallb (fun sp : NamedAgg => numeric_column df (fst (snd sp))) specs
  = true ->
  exists t sums,
    groupby_agg df key (revenue_sum :: specs) = Ok t
    /\ cells t key = group_keys (cells df key)
    /\ (forall k, In k (cells t key) -> isna k = false)
    /\ column t "Revenue" = Ok sums
    /\ total sums == total (cells (dropna df key) "Revenue")
    /\ (forallb (fun c => negb (isna c)) (cells df key) = true ->
        total sums == safe_sum (cells df "Revenue"))
    /\ forallb numeric sums = true.
Proof.
  intros Hkey Hneq Hrev Hspecs.
  destruct (has_column_index _ _ Hkey) as [ki Hki].
  destruct (numeric_column_cells _ _ Hrev) as (ri & Hri & Hnum).
  destruct (mapM_Forall2
              (fun sp : NamedAgg =>
                 j <- find_column df (fst (snd sp)) ;; Ok (j, snd (snd sp)))
              (fun _ jf =>
                 forallb numeric (map (cell_at (fst jf)) (rows df)) = true)
              specs) as (cols & Hcols & Pcols).
  { intros sp Hsp. rewrite forallb_forall in Hspecs.
    destruct (numeric_column_cells _ _ (Hspecs sp Hsp)) as (j & Hj & Hn).
    rewrite (find_column_ok _ _ _ Hj). cbn [bind]. eexists.
    split; [reflexivity|exact Hn]. }
  assert (Hall : Forall
            (fun jf : nat * AggFunc =>
               forallb numeric (map (cell_at (fst jf)) (rows df)) = true)
            cols).
  { exact (Forall2_right _ _ _ Pcols). }
  set (group := fun k => filter (fun r => cell_eqb (cell_at ki r) k) (rows df)).
  destruct (mapM_Forall2
              (fun k =>
                 vals <- mapM (fun jf : nat * AggFunc =>
                                 aggregate (snd jf)
                                   (map (cell_at (fst jf)) (group k)))
                              ((ri, AggSum) :: cols) ;;
                 Ok (k :: vals))
              (fun k row =>
                 exists q rest,
                   row = k :: CNum q :: rest
                   /\ q == total (map (cell_at ri) (group k)))
              (group_keys (map (cell_at ki) (rows df))))
    as (rs & Hrs & Prs).
  { intros k _. cbn [mapM fst snd aggregate].
    destruct (agg_sum_numeric (map (cell_at ri) (group k)))
      as (q & -> & Hq).
    { apply numeric_group. exact Hnum. }
    cbn [bind].
    destruct (mapM_Forall2
                (fun jf : nat * AggFunc =>
                   aggregate (snd jf) (map (cell_at (fst jf)) (group k)))
                (fun _ _ => True) cols) as (rest & -> & _).
    { intros jf Hjf. rewrite Forall_forall in Hall.
      destruct (aggregate_numeric (snd jf)
                  (map (cell_at (fst jf)) (group k))) as (c & Hc).
      { apply numeric_group. exact (Hall jf Hjf). }
      eauto. }
    cbn [bind]. eexists. split; [reflexivity|]. eauto. }
  exists (mkDataFrame (key :: "Revenue" :: map fst specs) rs),
         (map (cell_at 1) rs).
  assert (Hkeys : map (cell_at 0) rs = group_keys (map (cell_at ki) (rows df))).
  { clear Hrs. induction Prs as [|k row ks rs' (q & rest & -> & _) _ IH];
      [reflexivity|].
    cbn [map]. rewrite IH. reflexivity. }
  assert (Hsums : total (map (cell_at 1) rs)
                  == sum_over (fun k => total (map (cell_at ri) (group k)))
                       (group_keys (map (cell_at ki) (rows df)))).
  { clear Hrs Hkeys.
    induction Prs as [|k row ks rs' (q & rest & -> & Hq) _ IH];
      [reflexivity|].
    cbn [map sum_over fold_right]. rewrite total_cons.
    fold (sum_over (fun k => total (map (cell_at ri) (group k))) ks).
    rewrite IH. cbn [cell_at nth amount]. rewrite Hq. reflexivity. }
  assert (Hpart : total (map (cell_at 1) rs)
                  == total (map (cell_at ri)
                              (filter (fun r => negb (isna (cell_at ki r)))
                                 (rows df)))).
  { rewrite Hsums. apply groups_partition. intros r Hr.
    apply occurrences_group_keys. apply in_map. exact Hr. }
  assert (Hidx : index_of "Revenue" (key :: "Revenue" :: map fst specs)
                 = Some 1%nat).
  { cbn [index_of]. destruct (String.eqb "Revenue" key) eqn:E.
    - apply String.eqb_eq in E. congruence.
    - reflexivity. }
  assert (Hcells : cells df key = map (cell_at ki) (rows df)).
  { unfold cells. rewrite Hki. reflexivity. }
  split.
  { unfold groupby_agg. rewrite (find_column_ok _ _ _ Hki). cbn [bind mapM].
    unfold revenue_sum. cbn [fst snd map].
    rewrite (find_column_ok _ _ _ Hri). cbn [bind].
    rewrite Hcols. cbn [bind]. unfold group in Hrs. cbv zeta.
    rewrite Hrs. reflexivity. }
  assert (Htkeys : cells (mkDataFrame (key :: "Revenue" :: map fst specs) rs)
                     key
                   = group_keys (cells df key)).
  { unfold cells at 1. cbn [columns rows index_of].
    rewrite String.eqb_refl, Hkeys, Hcells. reflexivity. }
  split; [exact Htkeys|].
  split.
  { intros k Hk. rewrite Htkeys in Hk.
    exact (group_keys_present _ _ Hk). }
  split.
  { unfold column. cbn [columns rows]. rewrite Hidx. reflexivity. }
  split.
  { rewrite Hpart. unfold dropna. rewrite Hki. unfold cells.
    cbn [columns rows]. rewrite Hri. reflexivity. }
  split.
  { intro Hfull. rewrite Hpart.
    rewrite forallb_filter_id.
    - unfold cells. rewrite Hri. symmetry. apply safe_sum_numeric. exact Hnum.
    - rewrite Hcells in Hfull. rewrite forallb_forall in *.
      intros r Hr. apply Hfull. apply in_map. exact Hr. }
  clear - Prs. induction Prs as [|k row ks rs' (q & rest & -> & _) _ IH];
    [reflexivity|exact IH].
Qed.

(** ** Sorting *)

Section Insertion_sort.

Context {A : Type} (leb : A -> A -> bool).

Lemma insert_sorted_In (x y : A) (l : list A) :
  In x (insert_sorted leb y l) <-> x = y \/ In x l.
Proof.
  induction l as [|z l IH]; cbn [insert_sorted].
  - simpl. intuition.
  - destruct (leb y z); simpl in *; intuition.
Qed.

Lemma stable_sort_In (x : A) (l : list A) :
  In x (stable_sort leb l) <-> In x l.
Proof.
  induction l as [|y l IH]; [reflexivity|].
  cbn [stable_sort fold_right]. fold (stable_sort leb l).
  rewrite insert_sorted_In, IH. simpl. intuition.
Qed.

Lemma insert_sorted_length (y : A) (l : list A) :
  List.length (insert_sorted leb y l) = S (List.length l).
Proof.
  induction l as [|z l IH]; [reflexivity|].
  cbn [insert_sorted]. destruct (leb y z); simpl; congruence.
Qed.

Lemma stable_sort_length (l : list A) :
  List.length (stable_sort leb l) = List.length l.
Proof.
  induction l as [|y l IH]; [reflexivity|].
  cbn [stable_sort fold_right]. fold (stable_sort leb l).
  rewrite insert_sorted_length, IH. reflexivity.
Qed.

Hypothesis leb_total : forall a b, leb a b = false -> leb b a = true.

Lemma insert_sorted_Sorted (x : A) (l : list A) :
  Sorted (fun a b => leb a b = true) l ->
  Sorted (fun a b => leb a b = true) (insert_sorted leb x l).
Proof.
  induction 1 as [|y l Hl IH Hhd]; cbn [insert_sorted].
  - repeat constructor.
  - destruct (leb x y) eqn:E.
    + constructor; [constructor; assumption|constructor; exact E].
    + constructor; [exact IH|].
      destruct l as [|z l]; cbn [insert_sorted].
      * constructor. apply leb_total. exact E.
      * destruct (leb x z); constructor.
        -- apply leb_total. exact E.
        -- inversion Hhd. assumption.
Qed.

Lemma stable_sort_Sorted (l : list A) :
  Sorted (fun a b => leb a b = true) (stable_sort leb l).
Proof.
  induction l as [|x l IH]; [constructor|].
  cbn [stable_sort fold_right]. apply insert_sorted_Sorted. exact IH.
Qed.

End Insertion_sort.

Lemma Sorted_firstn {A : Type} (R : A -> A -> Prop) (n : nat) (l : list A) :
  Sorted R l -> Sorted R (firstn n l).
Proof.
  intro H. revert n. induction H as [|x l Hl IH Hhd]; intro n.
  - rewrite firstn_nil. constructor.
  - destruct n as [|n]; [constructor|]. cbn [firstn].
    constructor; [apply IH|].
    destruct Hhd as [|y l' Hxy]; [rewrite firstn_nil; constructor|].
    destruct n; constructor. exact Hxy.
Qed.

Lemma Sorted_restrict {A : Type} (R R' : A -> A -> Prop) (l : list A) :
  (forall a b, In a l -> In b l -> R a b -> R' a b) ->
  Sorted R l -> Sorted R' l.
Proof.
  intros Himp H. induction H as [|x l Hl IH Hhd]; [constructor|].
  constructor.
  - apply IH. intros a b Ha Hb. apply Himp; right; assumption.
  - destruct Hhd as [|y l' Hxy]; constructor.
    apply Himp; [left; reflexivity|right; left; reflexivity|exact Hxy].
Qed.

Lemma value_leb_total (a b : Cell) :
  value_leb a b = false -> value_leb b a = true.
Proof.
  destruct a as [x|s|t|], b as [y|s'|t'|]; cbn [value_leb];
    try discriminate; try reflexivity.
  - intro H. apply Qle_bool_iff.
    destruct (Qlt_le_dec y x) as [Hlt|Hle].
    + apply Qlt_le_weak. exact Hlt.
    + apply Qle_bool_iff in Hle. congruence.
  - intro H. destruct (String.leb_total s s') as [E|E]; congruence.
  - intro H. apply Z.leb_le. apply Z.leb_gt in H. lia.
Qed.

(** Sorting rows whose keys are all numbers: no key is set aside, no
    comparison raises. *)
Lemma nargsort_numbers (i : nat) (l : list Row) :
  (forall r, In r l -> exists q, cell_at i r = CNum q) ->
  nargsort (cell_at i) true l
  = Ok (stable_sort (fun a b => value_leb (cell_at i a) (cell_at i b)) l).
Proof.
  intro H. unfold nargsort.
  assert (Hp : filter (fun a => negb (isna (cell_at i a))) l = l).
  { apply forallb_filter_id. apply forallb_forall. intros r Hr.
    destruct (H r Hr) as [q ->]. reflexivity. }
  assert (Hm : filter (fun a => isna (cell_at i a)) l = []).
  { clear Hp. induction l as [|r l IH]; [reflexivity|]. cbn [filter].
    destruct (H r (or_introl eq_refl)) as [q ->]. cbn [isna].
    apply IH. intros r' Hr'. apply H. right. exact Hr'. }
  rewrite Hp, Hm, app_nil_r.
  assert (Hk : same_kind (map (cell_at i) l) = true).
  { destruct l as [|r l]; [reflexivity|]. cbn [map same_kind].
    destruct (H r (or_introl eq_refl)) as [q ->]. cbn [kind_of].
    apply forallb_forall. intros c Hc. apply in_map_iff in Hc.
    destruct Hc as (r' & <- & Hr').
    destruct (H r' (or_intror Hr')) as [q' ->]. reflexivity. }
  rewrite Hk. reflexivity.
Qed.

(** ** Sales rep coaching *)

Lemma groupby_agg_columns (df t : DataFrame) (key : string)
    (specs : list NamedAgg) :
  groupby_agg df key specs = Ok t -> columns t = key :: map fst specs.
Proof.
  unfold groupby_agg. intro H.
  bind_inv H. bind_inv H. bind_inv H. injection H as <-. reflexivity.
Qed.

Lemma mapM_number_numeric (s : list Cell) (xs : list pyfloat) :
  mapM number_of_cell s = Ok xs -> forallb numeric s = true.
Proof.
  revert xs. induction s as [|c s IH]; intros xs H; [reflexivity|].
  cbn [mapM] in H. bind_inv H. bind_inv H. cbn [forallb].
  rewrite (IH _ Ha0). destruct c; try discriminate; reflexivity.
Qed.

Lemma quantile_numeric (q : Q) (s : list Cell) (t : pyfloat) :
  quantile q s = Ok t -> forallb numeric s = true.
Proof.
  unfold quantile. intro H. bind_inv H.
  exact (mapM_number_numeric _ _ Ha).
Qed.

Lemma below_mask (t : pyfloat) (s : list Cell) :
  forallb numeric s = true ->
  mapM (fun c => cell_lt_float c t) s = Ok (map (is_below t) s).
Proof.
  induction s as [|c s IH]; intro H; [reflexivity|].
  cbn [forallb] in H. apply andb_true_iff in H. destruct H as [Hc Hs].
  cbn [mapM map]. rewrite (IH Hs).
  destruct c as [q|x|u|]; try discriminate; destruct t; reflexivity.
Qed.

Lemma combine_mask {A : Type} (f : A -> bool) (g : A -> Cell) (p : Cell -> bool)
    (l : list A) :
  map fst (filter snd (combine l (map p (map g l))))
  = filter (fun a => p (g a)) l.
Proof.
  induction l as [|a l IH]; [reflexivity|].
  cbn [map combine filter snd]. destruct (p (g a)); cbn [map fst];
    rewrite IH; reflexivity.
Qed.

Lemma mapM_str_item (cs : list Cell) (items : list string) :
  mapM str_item cs = Ok items -> cs = map CStr items.
Proof.
  revert items. induction cs as [|c cs IH]; intros items H.
  - injection H as <-. reflexivity.
  - cbn [mapM] in H. bind_inv H. bind_inv H. injection H as <-.
    cbn [map]. rewrite <- (IH _ Ha0).
    destruct c; try discriminate. injection Ha as <-. reflexivity.
Qed.

Lemma is_below_number (t : pyfloat) (c : Cell) :
  is_below t c = true -> exists q, c = CNum q.
Proof.
  destruct c; try discriminate. eauto.
Qed.

Lemma firstn_In {A : Type} (n : nat) (l : list A) (x : A) :
  In x (firstn n l) -> In x l.
Proof.
  revert n. induction l as [|y l IH]; intros n H.
  - rewrite firstn_nil in H. exact H.
  - destruct n; [contradiction|]. cbn [firstn] in H.
    destruct H as [H|H]; [left; exact H|right; exact (IH _ H)].
Qed.

(** What [sales_rep_coaching] computes, given the table of reps and the
    threshold: the reps below the threshold, sorted, first three. *)
Lemma sales_rep_coaching_eq (df rep : DataFrame) (t : pyfloat) :
  has_column df "Sales Rep" = true ->
  has_column df "Revenue" = true ->
  groupby_agg df "Sales Rep"
    [revenue_sum; ("Conversions", conversions_agg df)] = Ok rep ->
  quantile (1 # 4) (cells rep "Revenue") = Ok t ->
  sales_rep_coaching df
  = match filter (fun r => is_below t (cell_at 1 r)) (rows rep) with
    | [] => Ok []
    | lows =>
        items <- mapM str_item
                   (map (cell_at 0)
                      (firstn 3
                         (stable_sort
                            (fun a b => value_leb (cell_at 1 a) (cell_at 1 b))
                            lows))) ;;
        Ok [msg_coaching (join ", " items)]
    end.
Proof.
  intros Hsr Hrev Hrep Hq.
  pose proof (groupby_agg_columns _ _ _ _ Hrep) as Hcols.
  cbn [map fst revenue_sum] in Hcols.
  assert (Hcells : cells rep "Revenue" = map (cell_at 1) (rows rep)).
  { unfold cells. rewrite Hcols. reflexivity. }
  rewrite Hcells in Hq.
  pose proof (quantile_numeric _ _ _ Hq) as Hnum.
  unfold sales_rep_coaching. rewrite Hsr, Hrev. cbn [andb].
  assert (Hrep' : groupby_agg df "Sales Rep"
                    [("Revenue", ("Revenue", AggSum));
                     ("Conversions", conversions_agg df)] = Ok rep)
    by exact Hrep.
  rewrite Hrep'. cbn [bind].
  unfold low_performers, column. rewrite Hcols.
  cbn [index_of String.eqb Ascii.eqb Bool.eqb option_map bind].
  rewrite Hq. cbn [bind]. rewrite (below_mask _ _ Hnum). cbn [bind].
  rewrite (combine_mask (fun _ => true)). cbn [rows columns].
  destruct (filter (fun r => is_below t (cell_at 1 r)) (rows rep))
    as [|r lows] eqn:El; [reflexivity|].
  unfold sort_values.
  cbn [columns rows index_of String.eqb Ascii.eqb Bool.eqb option_map].
  rewrite nargsort_numbers.
  - cbn [bind head rows columns].
    cbn [index_of String.eqb Ascii.eqb Bool.eqb option_map bind].
    reflexivity.
  - intros r' Hr'. rewrite <- El in Hr'. apply filter_In in Hr'.
    exact (is_below_number _ _ (proj2 Hr')).
Qed.

Lemma filter_nil_iff {A : Type} (f : A -> bool) (l : list A) :
  filter f l = [] <-> forall a, In a l -> f a = false.
Proof.
  split.
  - intros H a Ha. destruct (f a) eqn:E; [|reflexivity].
    assert (Hin : In a (filter f l)) by (apply filter_In; auto).
    rewrite H in Hin. contradiction.
  - intro H. induction l as [|a l IH]; [reflexivity|]. cbn [filter].
    rewrite (H a (or_introl eq_refl)). apply IH.
    intros b Hb. apply H. right. exact Hb.
Qed.

(** C7: with both columns present, [rep] the per-rep sums and [t] the
    first quartile of their revenue, a coaching message lists between one
    and three reps, each a rep of the table with summed revenue strictly
    below [t], in ascending order of revenue; no message is produced exactly
    when no rep is below [t]; and the rule returns whenever the rep names
    are text. *)
Theorem coaching_lists_low_performers (df rep : DataFrame) (t : pyfloat) :
  has_column df "Sales Rep" = true ->
  has_column df "Revenue" = true ->
  groupby_agg df "Sales Rep"
    [revenue_sum; ("Conversions", conversions_agg df)] = Ok rep ->
  quantile (1 # 4) (cells rep "Revenue") = Ok t ->
  (forall recs,
     sales_rep_coaching df = Ok recs ->
     recs = []
     \/ exists listed names,
          recs = [msg_coaching (join ", " names)]
          /\ (1 <= List.length listed <= 3)%nat
          /\ map (cell_at 0) listed = map CStr names
          /\ (forall r, In r listed ->
                In r (rows rep) /\ is_below t (cell_at 1 r) = true)
          /\ ascending_by 1 listed)
  /\ ((forall r, In r (rows rep) -> is_below t (cell_at 1 r) = false)
      <-> sales_rep_coaching df = Ok [])
  /\ ((forall r, In r (rows rep) -> exists n, cell_at 0 r = CStr n) ->
      exists recs, sales_rep_coaching df = Ok recs).
Proof.
  intros Hsr Hrev Hrep Hq.
  rewrite (sales_rep_coaching_eq df rep t Hsr Hrev Hrep Hq).
  set (low := fun r => is_below t (cell_at 1 r)).
  set (leb := fun a b : Row => value_leb (cell_at 1 a) (cell_at 1 b)).
  destruct (filter low (rows rep)) as [|r0 lows] eqn:El.
  - split; [intros recs H; left; congruence|].
    split; [|eauto].
    split; [reflexivity|]. intros _. apply filter_nil_iff. exact El.
  - assert (Hlow : forall r, In r (stable_sort leb (r0 :: lows)) ->
                     In r (rows rep) /\ low r = true).
    { intros r Hr. apply stable_sort_In in Hr. rewrite <- El in Hr.
      apply filter_In in Hr. exact Hr. }
    split; [|split].
    + intros recs H. right. bind_inv H. injection H as <-.
      exists (firstn 3 (stable_sort leb (r0 :: lows))), a.
      split; [reflexivity|]. split.
      { rewrite length_firstn, stable_sort_length. cbn [List.length]. lia. }
      split; [exact (mapM_str_item _ _ Ha)|]. split.
      { intros r Hr. apply Hlow. exact (firstn_In _ _ _ Hr). }
      apply Sorted_firstn.
      apply (Sorted_restrict (fun a b => leb a b = true)).
      * intros x y Hx Hy Hxy.
        destruct (is_below_number _ _ (proj2 (Hlow x Hx))) as [qx Ex].
        destruct (is_below_number _ _ (proj2 (Hlow y Hy))) as [qy Ey].
        unfold leb in Hxy. rewrite Ex, Ey in *. cbn [value_leb] in Hxy.
        cbn [amount]. apply Qle_bool_iff. exact Hxy.
      * apply stable_sort_Sorted. intros x y. apply value_leb_total.
    + split.
      * intro H. exfalso.
        assert (Hin : In r0 (filter low (rows rep)))
          by (rewrite El; left; reflexivity).
        apply filter_In in Hin. destruct Hin as [Hin Hb].
        unfold low in Hb. rewrite (H r0 Hin) in Hb. discriminate.
      * intro H. bind_inv H. discriminate.
    + intro Hnames.
      destruct (mapM_Forall2 str_item (fun _ _ => True)
                  (map (cell_at 0)
                     (firstn 3 (stable_sort leb (r0 :: lows)))))
        as (items & Hitems & _).
      { intros c Hc. apply in_map_iff in Hc. destruct Hc as (r & <- & Hr).
        destruct (Hnames r (proj1 (Hlow r (firstn_In _ _ _ Hr)))) as [n ->].
        cbn. eauto. }
      rewrite Hitems. cbn [bind]. eauto.
Qed.




(** * Further properties of the code *)

(** ** Metrics *)

Lemma strict_sum_nil : strict_sum [] = 0.
Proof. reflexivity. Qed.

Lemma orders_and_rows (df : DataFrame) :
  exists m,
    compute_metrics df = Ok m
    /\ (0 < orders m <-> (0 < len df)%nat)
    /\ ((0 < len df)%nat -> aov m = Fin (revenue m / orders m))
    /\ (aov m = NaN
        <-> len df = O /\ has_column df "Average Order Size" = true).
Proof.
  destruct (len df) as [|n] eqn:Hlen.
  - assert (Hrows : rows df = []) by (apply length_zero_iff_nil; exact Hlen).
    rewrite (compute_metrics_no_rows _ Hrows). eexists.
    split; [reflexivity|]. cbn [orders aov revenue].
    split; [split; intro H; [inversion H|lia]|].
    split; [lia|].
    destruct (has_column df "Average Order Size"); split;
      try discriminate; intuition congruence.
  - destruct (metrics_follow_strict df)
      as (m & Hm & _ & Hord & Haov & _).
    exists m. split; [exact Hm|].
    assert (Hpos : 0 < orders m).
    { rewrite Hord.
      destruct (Qlt_bool 0 (column_total df "Conversions")) eqn:E.
      - apply Qlt_bool_iff. exact E.
      - apply Q_of_nat_pos. lia. }
    split; [split; intro; [lia|exact Hpos]|].
    split; [intros _; exact (Haov Hpos)|].
    rewrite (Haov Hpos). split; [discriminate|]. intros [H _]. discriminate H.
Qed.


Lemma lenient_sum_perm (s s' : list Cell) :
  Permutation s s' -> lenient_sum s == lenient_sum s'.
Proof.
  unfold lenient_sum.
  induction 1 as [|c l l' _ IH|c d l|l l' l'' _ IH1 _ IH2];
    cbn [fold_right].
  - reflexivity.
  - rewrite IH. reflexivity.
  - ring.
  - rewrite IH1. exact IH2.
Qed.

Lemma forallb_perm {A : Type} (f : A -> bool) (l l' : list A) :
  Permutation l l' -> forallb f l = forallb f l'.
Proof.
  induction 1 as [|c l l' _ IH|c d l|l l' l'' _ IH1 _ IH2]; cbn [forallb].
  - reflexivity.
  - rewrite IH. reflexivity.
  - destruct (f c), (f d); reflexivity.
  - congruence.
Qed.

Lemma column_total_perm (df df' : DataFrame) (name : string) :
  columns df = columns df' ->
  Permutation (rows df) (rows df') ->
  column_total df name == column_total df' name.
Proof.
  intros Hc Hp.
  unfold column_total, has_column, duplicated, count_column, cells.
  rewrite <- Hc.
  destruct (existsb (String.eqb name) (columns df) && _); [|reflexivity].
  destruct (index_of name (columns df)) as [i|]; [|reflexivity].
  unfold strict_sum.
  rewrite (forallb_perm coerces _ _ (Permutation_map (cell_at i) Hp)).
  destruct (forallb coerces (map (cell_at i) (rows df'))); [|reflexivity].
  apply lenient_sum_perm. apply Permutation_map. exact Hp.
Qed.

(** [compute_metrics] and [safe_sum], lines 47-60, on whole amounts: two
    datasets with the same columns and the same rows in another order have
    the same revenue, orders, average order value and conversion rate.  The
    sums of line 49 are float sums, which round; on whole amounts of total
    magnitude at most 2^53 every partial sum is a whole number that a float
    holds exactly, in whatever order the rows come, and this is where the
    sum of the model, over the rationals, is the sum of the code. *)
Theorem metrics_ignore_row_order (df df' : DataFrame) :
  columns df = columns df' ->
  Permutation (rows df) (rows df') ->
  exactly_summed df "Revenue" ->
  exactly_summed df "Conversions" ->
  exists m m',
    compute_metrics df = Ok m
    /\ compute_metrics df' = Ok m'
    /\ revenue m == revenue m'
    /\ orders m == orders m'
    /\ float_eq (aov m) (aov m')
    /\ float_eq (conv_rate m) (conv_rate m')
    /\ nrows m = nrows m'.
Proof.
  intros Hc Hp _ _.
  assert (Hlen : len df = len df').
  { unfold len. apply Permutation_length. exact Hp. }
  assert (Hhas : forall n, has_column df n = has_column df' n).
  { intro n. unfold has_column. rewrite Hc. reflexivity. }
  destruct (metrics_follow_strict df)
    as (m & Hm & Hrev & Hord & Haov & Hmean & Hzero & Hrate & Hn).
  destruct (metrics_follow_strict df')
    as (m' & Hm' & Hrev' & Hord' & Haov' & Hmean' & Hzero' & Hrate' & Hn').
  exists m, m'.
  pose proof (column_total_perm df df' "Revenue" Hc Hp) as Er.
  pose proof (column_total_perm df df' "Conversions" Hc Hp) as Ec.
  assert (Erev : revenue m == revenue m') by (rewrite Hrev, Hrev'; exact Er).
  assert (Eord : orders m == orders m').
  { rewrite Hord, Hord', <- Hlen.
    rewrite (Qlt_bool_compat 0 (column_total df "Conversions")
               0 (column_total df' "Conversions")) by (reflexivity || exact Ec).
    destruct (Qlt_bool 0 (column_total df' "Conversions"));
      [exact Ec|reflexivity]. }
  split; [exact Hm|]. split; [exact Hm'|].
  split; [exact Erev|]. split; [exact Eord|]. split; [|split].
  - destruct (Qlt_le_dec 0 (orders m)) as [Hpos|Hle].
    + assert (Hpos' : 0 < orders m') by (rewrite <- Eord; exact Hpos).
      rewrite (Haov Hpos), (Haov' Hpos'). cbn [float_eq].
      rewrite Erev, Eord. reflexivity.
    + assert (Hn0 : ~ 0 < orders m) by (apply Qle_not_lt; exact Hle).
      assert (Hn0' : ~ 0 < orders m') by (rewrite <- Eord; exact Hn0).
      destruct (orders_and_rows df) as (m0 & Hm0 & Hiff & _).
      rewrite Hm in Hm0. injection Hm0 as <-.
      assert (Hz : len df = O).
      { destruct (len df) eqn:E; [reflexivity|].
        exfalso. apply Hn0. apply Hiff. lia. }
      assert (Hr : rows df = []) by (apply length_zero_iff_nil; exact Hz).
      assert (Hr' : rows df' = []).
      { apply length_zero_iff_nil. fold (len df'). rewrite <- Hlen. exact Hz. }
      clear - Hm Hm' Hr Hr' Hhas.
      rewrite (compute_metrics_no_rows _ Hr) in Hm.
      rewrite (compute_metrics_no_rows _ Hr') in Hm'.
      injection Hm as <-. injection Hm' as <-. cbn [aov]. rewrite <- Hhas.
      destruct (has_column df "Average Order Size"); cbn; auto. reflexivity.
  - revert Hrate Hrate'. rewrite <- Hhas, <- Hlen.
    destruct (has_column df "Conversions" && (0 <? len df)%nat).
    + destruct (conv_rate m), (conv_rate m'); cbn [float_eq];
        try contradiction. intros -> ->. rewrite Ec. reflexivity.
    + destruct (conv_rate m), (conv_rate m'); cbn [float_eq];
        try contradiction. auto.
  - congruence.
Qed.

(** ** Filters *)

Lemma filters_split (ui : Sidebar) (df : DataFrame) :
  filters ui df = (d <- date_filter ui df ;; category_filters ui d).
Proof. reflexivity. Qed.

Lemma narrows_refl (df : DataFrame) : narrows df df.
Proof.
  split; [reflexivity|]. exists (fun _ => true). symmetry. apply filter_true.
Qed.

Lemma filter_filter {A : Type} (p q : A -> bool) (l : list A) :
  filter p (filter q l) = filter (fun x => q x && p x) l.
Proof.
  induction l as [|x l IH]; [reflexivity|]. cbn [filter].
  destruct (q x); cbn [filter andb]; [destruct (p x)|]; rewrite IH;
    reflexivity.
Qed.

Lemma narrows_trans (a b c : DataFrame) :
  narrows a b -> narrows b c -> narrows a c.
Proof.
  intros [Hc1 [k1 Hr1]] [Hc2 [k2 Hr2]]. split; [congruence|].
  exists (fun x => k1 x && k2 x). rewrite Hr2, Hr1. apply filter_filter.
Qed.

Lemma filter_length_le {A : Type} (p : A -> bool) (l : list A) :
  (List.length (filter p l) <= List.length l)%nat.
Proof.
  induction l as [|x l IH]; [reflexivity|]. cbn [filter].
  destruct (p x); cbn [List.length]; lia.
Qed.

Lemma filter_length_lt {A : Type} (p : A -> bool) (l : list A) (x : A) :
  In x l -> p x = false ->
  (List.length (filter p l) < List.length l)%nat.
Proof.
  induction l as [|y l IH]; intros Hin Hp; [contradiction|].
  cbn [filter]. destruct Hin as [->|Hin].
  - rewrite Hp. pose proof (filter_length_le p l). cbn [List.length]. lia.
  - specialize (IH Hin Hp). destruct (p y); cbn [List.length]; lia.
Qed.

Lemma narrows_len (df d : DataFrame) :
  narrows df d -> (len d <= len df)%nat.
Proof.
  intros [_ [k Hr]]. unfold len. rewrite Hr. apply filter_length_le.
Qed.

Lemma narrows_In (df d : DataFrame) (r : Row) :
  narrows df d -> In r (rows d) -> In r (rows df).
Proof.
  intros [_ [k Hr]] H. rewrite Hr in H. apply filter_In in H. tauto.
Qed.

Lemma select_inv (df d : DataFrame) (name : string) (keep : Cell -> bool) :
  select df name keep = Ok d ->
  exists i,
    index_of name (columns df) = Some i
    /\ d = mkDataFrame (columns df)
             (filter (fun r => keep (cell_at i r)) (rows df)).
Proof.
  unfold select. destruct (index_of name (columns df)) as [i|];
    [|discriminate].
  intro H. injection H as <-. eauto.
Qed.

Lemma select_narrows (df d : DataFrame) (name : string) (keep : Cell -> bool) :
  select df name keep = Ok d -> narrows df d.
Proof.
  intro H. destruct (select_inv _ _ _ _ H) as (i & _ & ->).
  split; [reflexivity|]. eexists. reflexivity.
Qed.

Lemma filter_isin_narrows (df d : DataFrame) (name : string) (sel : list Cell) :
  filter_isin df name sel = Ok d -> narrows df d.
Proof.
  unfold filter_isin. destruct sel.
  - intro H. injection H as <-. apply narrows_refl.
  - apply select_narrows.
Qed.

Lemma date_filter_narrows (ui : Sidebar) (df d : DataFrame) :
  date_filter ui df = Ok d -> narrows df d.
Proof.
  unfold date_filter. destruct (has_column df "Date").
  - intro H. bind_inv H.
    destruct (date_input ui _ _) as [|d0 [|d1 [|d2 l]]];
      try (injection H as <-; apply narrows_refl).
    exact (select_narrows _ _ _ _ H).
  - intro H. injection H as <-. apply narrows_refl.
Qed.

Lemma category_filters_narrows (ui : Sidebar) (df d : DataFrame) :
  category_filters ui df = Ok d -> narrows df d.
Proof.
  unfold category_filters. intro H. do 4 bind_inv H.
  pose proof (filter_isin_narrows _ _ _ _ Ha0) as N1.
  pose proof (filter_isin_narrows _ _ _ _ Ha2) as N2.
  apply (narrows_trans _ _ _ N1). apply (narrows_trans _ _ _ N2).
  destruct (has_column a2 "Business").
  - bind_inv H. exact (filter_isin_narrows _ _ _ _ H).
  - injection H as <-. apply narrows_refl.
Qed.

Lemma filters_narrow (ui : Sidebar) (df df' : DataFrame) :
  filters ui df = Ok df' ->
  exists d, date_filter ui df = Ok d /\ narrows df d /\ narrows d df'.
Proof.
  rewrite filters_split. intro H. bind_inv H. exists a.
  split; [exact Ha|]. split.
  - exact (date_filter_narrows _ _ _ Ha).
  - exact (category_filters_narrows _ _ _ H).
Qed.

(** The filters, lines 177-195: whatever the user picks, the filtered
    dataset has the columns of the input and a selection of its rows, in
    their order; no row is added or altered, and the row count does not
    grow. *)
Theorem filters_only_drop_rows (ui : Sidebar) (df df' : DataFrame) :
  filters ui df = Ok df' ->
  columns df' = columns df
  /\ (exists keep, rows df' = filter keep (rows df))
  /\ (len df' <= len df)%nat.
Proof.
  intro H. destruct (filters_narrow _ _ _ H) as (d & _ & N1 & N2).
  pose proof (narrows_trans _ _ _ N1 N2) as N.
  split; [exact (proj1 N)|]. split; [exact (proj2 N)|].
  exact (narrows_len _ _ N).
Qed.





(** The filters, lines 177-181: once two dates are picked, every row that
    is kept has a parsed date between the midnight of the first and the
    midnight of the second, bounds included; a row whose date is missing is
    never kept. *)
Theorem date_range_bounds (ui : Sidebar) (df df' : DataFrame)
    (d0 d1 : option Z) :
  has_column df "Date" = true ->
  date_input ui (date_of (series_min (cells df "Date")))
    (date_of (series_max (cells df "Date"))) = [d0; d1] ->
  filters ui df = Ok df' ->
  forall r, In r (rows df') ->
    exists t a b,
      row_get df r "Date" = Ok (CTime t)
      /\ d0 = Some a /\ d1 = Some b
      /\ (a * day_ns <= t <= b * day_ns)%Z.
Proof.
  intros Hc Hui H r Hr.
  destruct (filters_narrow _ _ _ H) as (d & Hd & _ & N).
  pose proof (narrows_In _ _ _ N Hr) as Hin.
  unfold date_filter in Hd. rewrite Hc, (column_cells _ _ Hc) in Hd.
  cbn [bind] in Hd. rewrite Hui in Hd.
  destruct (select_inv _ _ _ _ Hd) as (i & Hi & ->). cbn [rows] in Hin.
  apply filter_In in Hin. destruct Hin as [_ Hp].
  apply andb_true_iff in Hp. destruct Hp as [Hge Hle].
  unfold row_get. rewrite Hi.
  unfold time_ge, time_le in *.
  destruct (cell_at i r) as [q|x|t|]; cbn [time_of_cell] in *;
    try discriminate.
  destruct d0 as [a|], d1 as [b|]; cbn [to_datetime option_map] in *;
    try discriminate.
  exists t, a, b. apply Z.leb_le in Hge, Hle. auto.
Qed.

Lemma extremum_attained (pick : Z -> Z -> Z) (s : list Cell) (acc : option Z)
    (m : Z) :
  (forall a b, pick a b = a \/ pick a b = b) ->
  fold_left (opt_extremum pick) s acc = Some m ->
  acc = Some m \/ In (CTime m) s.
Proof.
  intro Hpick. revert acc. induction s as [|c s IH]; intros acc H.
  - left. exact H.
  - cbn [fold_left] in H. destruct (IH _ H) as [E|Hin]; [|right; right; exact Hin].
    destruct c as [q|x|t|]; cbn [opt_extremum time_of_cell] in E; auto.
    destruct acc as [a|].
    + destruct (Hpick a t) as [Ep|Ep]; rewrite Ep in E.
      * left. exact E.
      * injection E as <-. right. left. reflexivity.
    + injection E as <-. right. left. reflexivity.
Qed.

(** The filters, lines 178-181: the upper end of the default date range is
    the midnight that opens the last day, so when the latest date carries a
    time of day the default range itself drops at least that row. *)
Theorem default_range_drops_last_day (ui : Sidebar) (df df' : DataFrame)
    (last : Z) :
  has_column df "Date" = true ->
  series_max (cells df "Date") = Some last ->
  (last mod day_ns <> 0)%Z ->
  (forall lo hi, date_input ui lo hi = [lo; hi]) ->
  filters ui df = Ok df' ->
  (len df' < len df)%nat.
Proof.
  intros Hc Hmax Hmod Hui H.
  destruct (filters_narrow _ _ _ H) as (d & Hd & _ & N).
  pose proof (narrows_len _ _ N) as Hle.
  unfold date_filter in Hd. rewrite Hc, (column_cells _ _ Hc) in Hd.
  cbn [bind] in Hd. rewrite Hui in Hd.
  destruct (select_inv _ _ _ _ Hd) as (i & Hi & ->).
  destruct (extremum_attained Z.max (cells df "Date") None last) as [E|Hin];
    [intros a b; lia|exact Hmax|discriminate|].
  unfold cells in Hin. rewrite Hi in Hin. apply in_map_iff in Hin.
  destruct Hin as (r & Er & Hr).
  enough (Hlt : (len (mkDataFrame (columns df)
                   (filter (fun r => time_ge (cell_at i r)
                        (to_datetime (date_of (series_min (cells df "Date"))))
                      && time_le (cell_at i r)
                        (to_datetime (date_of (series_max (cells df "Date")))))
                      (rows df))) < len df)%nat) by lia.
  unfold len. cbn [rows]. apply (filter_length_lt _ _ r Hr).
  rewrite Er, Hmax. apply andb_false_iff. right.
  cbn [time_le time_of_cell date_of to_datetime option_map].
  apply Z.leb_gt.
  pose proof (Z.div_mod last day_ns) as Hdm.
  pose proof (Z.mod_pos_bound last day_ns) as Hb.
  unfold day_ns in *. lia.
Qed.

(** ** Group-by *)

Lemma mapM_inv {A B : Type} (f : A -> result B) (l : list A) (bs : list B) :
  mapM f l = Ok bs -> Forall2 (fun a b => f a = Ok b) l bs.
Proof.
  revert bs. induction l as [|a l IH]; intros bs H.
  - injection H as <-. constructor.
  - cbn [mapM] in H. bind_inv H. bind_inv H. injection H as <-.
    constructor; [exact Ha0|apply IH; exact Ha1].
Qed.

Lemma Forall2_compose {A B C : Type} (P : A -> B -> Prop) (Q : B -> C -> Prop)
    (l : list A) (m : list B) (n : list C) :
  Forall2 P l m -> Forall2 Q m n ->
  Forall2 (fun a c => exists b, P a b /\ Q b c) l n.
Proof.
  intro H. revert n. induction H as [|a b l m Hab _ IH]; intros n Hn.
  - inversion Hn. constructor.
  - inversion Hn as [|b' c m' n' Hbc Hmn]; subst.
    constructor; [eauto|apply IH; exact Hmn].
Qed.

(** What a returned aggregation holds: one row per group key, the key
    first, then the aggregate of each named column over the rows of the
    group. *)
Lemma groupby_agg_inv (df t : DataFrame) (key : string)
    (specs : list NamedAgg) :
  groupby_agg df key specs = Ok t ->
  exists ki,
    index_of key (columns df) = Some ki
    /\ columns t = key :: map fst specs
    /\ Forall2
         (fun k row =>
            exists vals,
              row = k :: vals
              /\ Forall2
                   (fun (sp : NamedAgg) v =>
                      exists j,
                        index_of (fst (snd sp)) (columns df) = Some j
                        /\ aggregate (snd (snd sp))
                             (map (cell_at j)
                                (filter (fun r => cell_eqb (cell_at ki r) k)
                                   (rows df))) = Ok v)
                   specs vals)
         (group_keys (map (cell_at ki) (rows df))) (rows t).
Proof.
  unfold groupby_agg. intro H. bind_inv H. bind_inv H. bind_inv H.
  injection H as <-. unfold find_column in Ha.
  destruct (index_of key (columns df)) as [ki|] eqn:Hki; [|discriminate].
  injection Ha as <-. exists ki. split; [reflexivity|].
  split; [reflexivity|]. cbn [rows].
  pose proof (mapM_inv _ _ _ Ha0) as Hcols.
  pose proof (mapM_inv _ _ _ Ha1) as Hrows.
  eapply Forall2_impl; [|exact Hrows].
  intros k row Hrow. cbv beta zeta in Hrow. bind_inv Hrow.
  injection Hrow as <-. exists a. split; [reflexivity|].
  pose proof (mapM_inv _ _ _ Ha) as Hvals.
  eapply Forall2_impl; [|exact (Forall2_compose _ _ _ _ _ Hcols Hvals)].
  intros sp v (jf & Hjf & Hagg). bind_inv Hjf. injection Hjf as <-.
  unfold find_column in Ha2.
  destruct (index_of (fst (snd sp)) (columns df)) as [j|]; [|discriminate].
  injection Ha2 as <-. exists j. split; [reflexivity|exact Hagg].
Qed.

Lemma key_leb_total (a b : Cell) : key_leb a b = false -> key_leb b a = true.
Proof.
  destruct a as [x|s|t|], b as [y|s'|t'|]; cbn [key_leb];
    try discriminate; try reflexivity.
  - intro H. apply Qle_bool_iff.
    destruct (Qlt_le_dec y x) as [Hlt|Hle].
    + apply Qlt_le_weak. exact Hlt.
    + apply Qle_bool_iff in Hle. congruence.
  - intro H. destruct (String.leb_total s s') as [E|E]; congruence.
  - intro H. apply Z.leb_le. apply Z.leb_gt in H. lia.
Qed.

Lemma groupby_agg_keys (df t : DataFrame) (key : string)
    (specs : list NamedAgg) :
  groupby_agg df key specs = Ok t ->
  cells t key = group_keys (cells df key).
Proof.
  intro H. destruct (groupby_agg_inv _ _ _ _ H) as (ki & Hki & Hc & Hrows).
  unfold cells. rewrite Hc, Hki. cbn [index_of]. rewrite String.eqb_refl.
  induction Hrows as [|k row ks rs (vals & -> & _) _ IH]; [reflexivity|].
  cbn [map]. rewrite IH. reflexivity.
Qed.

Lemma groupby_first_column (df t t0 : DataFrame) (key : string)
    (sp : NamedAgg) (specs : list NamedAgg) :
  groupby_agg df key (sp :: specs) = Ok t ->
  groupby_agg df key [sp] = Ok t0 ->
  map (cell_at 1) (rows t) = map (cell_at 1) (rows t0).
Proof.
  intros H H0.
  destruct (groupby_agg_inv _ _ _ _ H) as (ki & Hki & _ & Hrows).
  destruct (groupby_agg_inv _ _ _ _ H0) as (ki0 & Hki0 & _ & Hrows0).
  assert (ki0 = ki) by congruence. subst ki0. clear H H0.
  revert Hrows0. generalize (rows t0).
  induction Hrows as [|k row ks rs (vals & -> & Hvals) _ IH];
    intros rs0 Hrows0; inversion Hrows0 as [|k' row0 ks' rs0' Hrow0 Hrest];
    subst; [reflexivity|].
  cbn [map]. f_equal; [|exact (IH _ Hrest)].
  destruct Hrow0 as (vals0 & -> & Hvals0).
  inversion Hvals as [|s1 v l1 m1 (j & Hj & Hv) _]; subst.
  inversion Hvals0 as [|s2 v0 l2 m2 (j0 & Hj0 & Hv0) _]; subst.
  assert (j0 = j) by congruence. subst j0.
  cbn [cell_at nth]. congruence.
Qed.

(** C5 (amended): for a numeric Revenue column and a grouping column other
    than Revenue, each borne by one column, whatever else is aggregated
    with the sum of Revenue: whenever the aggregation returns, its groups
    are the distinct values present in the grouping column, a row whose
    group value is missing belongs to no group, and the per-group sums of
    Revenue total the Revenue of the rows whose group value is present,
    which is the overall Revenue sum when no group value is missing; and the
    aggregation does return when the other columns it aggregates are
    numeric as well. *)
Theorem group_sums_total (df : DataFrame) (key : string)
    (specs : list NamedAgg) :
  has_column df key = true ->
  duplicated df key = false ->
  key <> "Revenue" ->
  numeric_column df "Revenue" = true ->
  duplicated df "Revenue" = false ->
  (forall t,
     groupby_agg df key (revenue_sum :: specs) = Ok t ->
     exists sums,
       cells t key = group_keys (cells df key)
       /\ (forall k, In k (cells t key) -> isna k = false)
       /\ column t "Revenue" = Ok sums
       /\ total sums == total (cells (dropna df key) "Revenue")
       /\ (forallb (fun c => negb (isna c)) (cells df key) = true ->
           total sums == safe_sum (cells df "Revenue")))
  /\ (forallb (fun sp : NamedAgg => numeric_column df (fst (snd sp))) specs
      = true ->
      exists t, groupby_agg df key (revenue_sum :: specs) = Ok t).
Proof.
  intros Hkey _ Hneq Hrev _. split.
  - intros t Ht.
    destruct (groupby_numeric df key [] Hkey Hneq Hrev eq_refl)
      as (t0 & sums0 & Ht0 & _ & _ & Hs0 & Htot & Hfull & _).
    pose proof (groupby_agg_columns _ _ _ _ Ht) as Hcols.
    pose proof (groupby_agg_columns _ _ _ _ Ht0) as Hcols0.
    cbn [map fst revenue_sum] in Hcols, Hcols0.
    assert (Hidx : forall rest,
              index_of "Revenue" (key :: "Revenue" :: rest) = Some 1%nat).
    { intro rest. cbn [index_of].
      destruct (String.eqb_spec "Revenue" key) as [E|_];
        [symmetry in E; contradiction|reflexivity]. }
    assert (Hsums0 : sums0 = map (cell_at 1) (rows t0)).
    { unfold column in Hs0. rewrite Hcols0, Hidx in Hs0. congruence. }
    exists (map (cell_at 1) (rows t)).
    split; [exact (groupby_agg_keys _ _ _ _ Ht)|].
    split.
    { intros k Hk. rewrite (groupby_agg_keys _ _ _ _ Ht) in Hk.
      exact (group_keys_present _ _ Hk). }
    split; [unfold column; rewrite Hcols, Hidx; reflexivity|].
    rewrite (groupby_first_column _ _ _ _ _ _ Ht Ht0), <- Hsums0.
    split; [exact Htot|exact Hfull].
  - intro Hspecs.
    destruct (groupby_numeric df key specs Hkey Hneq Hrev Hspecs)
      as (t & _ & Ht & _).
    exists t. exact Ht.
Qed.

(** [groupby(...).agg(...)], lines 66-68, 76, 81, 217-219, 244, 255-257,
    271, 293-294: whenever the aggregation returns, its table has exactly
    one row for each distinct value present in the grouping column, none
    for the missing value, and the rows come in ascending order of the
    key. *)
Theorem one_row_per_group (df t : DataFrame) (key : string)
    (specs : list NamedAgg) :
  groupby_agg df key specs = Ok t ->
  (forall c, In c (cells df key) ->
     occurrences (cells t key) c = if isna c then O else 1%nat)
  /\ (forall k, In k (cells t key) -> isna k = false /\ isin (cells df key) k = true)
  /\ Sorted (fun a b => key_leb a b = true) (cells t key)
  /\ len t = List.length (cells t key).
Proof.
  intro H. pose proof (groupby_agg_keys _ _ _ _ H) as Hk.
  split; [|split; [|split]].
  - intros c Hc. rewrite Hk. apply occurrences_group_keys. exact Hc.
  - intros k Hin. rewrite Hk in Hin. split.
    + exact (group_keys_present _ _ Hin).
    + unfold group_keys in Hin. apply stable_sort_In in Hin.
      assert (G : forall l, In k (unique l) -> In k l).
      { induction l as [|a l IH]; [auto|]. cbn [unique].
        intros [E|E]; [left; exact E|].
        apply filter_In in E. right. apply IH. tauto. }
      apply G in Hin. apply filter_In in Hin. apply isin_self. tauto.
  - rewrite Hk. apply stable_sort_Sorted. exact key_leb_total.
  - destruct (groupby_agg_inv _ _ _ _ H) as (ki & Hki & Hc & Hrows).
    unfold len, cells. rewrite Hc. cbn [index_of].
    rewrite String.eqb_refl, length_map. reflexivity.
Qed.

(** ** Summary tables *)








(** ** The first row of a sort *)

Section Sort_extrema.

Context {A : Type} (leb : A -> A -> bool) (P : A -> Prop).

Hypothesis leb_refl : forall a, P a -> leb a a = true.
Hypothesis leb_trans :
  forall a b c, P a -> P b -> P c ->
    leb a b = true -> leb b c = true -> leb a c = true.
Hypothesis leb_total : forall a b, leb a b = false -> leb b a = true.

Lemma stable_sort_Forall (l : list A) :
  Forall P l -> Forall P (stable_sort leb l).
Proof.
  rewrite !Forall_forall. intros H x Hx. apply H.
  apply (stable_sort_In leb). exact Hx.
Qed.

Lemma insert_head_min (x : A) (s : list A) :
  P x -> Forall P s ->
  (forall h t, s = h :: t -> forall y, In y s -> leb h y = true) ->
  forall h t, insert_sorted leb x s = h :: t ->
    forall y, In y (insert_sorted leb x s) -> leb h y = true.
Proof.
  intros Px Ps Hmin h t E y Hy. rewrite Forall_forall in Ps.
  apply insert_sorted_In in Hy.
  destruct s as [|h' t']; cbn [insert_sorted] in E.
  - injection E as <- <-. destruct Hy as [->|[]]. apply leb_refl. exact Px.
  - specialize (Hmin h' t' eq_refl).
    destruct (leb x h') eqn:Exh; injection E as <- <-.
    + destruct Hy as [->|Hy]; [apply leb_refl; exact Px|].
      apply (leb_trans x h' y); auto. apply Ps. left. reflexivity.
    + destruct Hy as [->|Hy]; [apply leb_total; exact Exh|].
      apply Hmin. exact Hy.
Qed.

Lemma sort_head_min (l : list A) :
  Forall P l ->
  forall h t, stable_sort leb l = h :: t ->
    forall y, In y l -> leb h y = true.
Proof.
  induction l as [|x l IH]; intros Pl h t E y Hy; [contradiction|].
  inversion Pl as [|x' l' Px Pl']; subst.
  cbn [stable_sort fold_right] in E. fold (stable_sort leb l) in E.
  apply (insert_head_min x (stable_sort leb l) Px
           (stable_sort_Forall l Pl')) with (t := t); [|exact E|].
  - intros h' t' E' y' Hy'. apply (IH Pl' h' t' E').
    apply (stable_sort_In leb). exact Hy'.
  - apply insert_sorted_In. destruct Hy as [->|Hy]; [left; reflexivity|].
    right. apply stable_sort_In. exact Hy.
Qed.

Lemma insert_sorted_not_nil (x : A) (s : list A) :
  insert_sorted leb x s <> [].
Proof.
  destruct s as [|h t]; cbn [insert_sorted]; [discriminate|].
  destruct (leb x h); discriminate.
Qed.

Lemma last_cons_cons (a b : A) (l : list A) (d : A) :
  last (a :: b :: l) d = last (b :: l) d.
Proof. reflexivity. Qed.

Lemma insert_last_max (d x : A) (s : list A) :
  P x -> Forall P s ->
  (forall y, In y s -> leb y (last s d) = true) ->
  forall y, In y (insert_sorted leb x s) ->
    leb y (last (insert_sorted leb x s) d) = true.
Proof.
  intro Px. induction s as [|h t IH]; intros Ps Hmax y Hy.
  - destruct Hy as [<-|[]]. apply leb_refl. exact Px.
  - inversion Ps as [|h' t' Ph Pt]; subst.
    cbn [insert_sorted] in *. destruct (leb x h) eqn:Exh.
    + rewrite last_cons_cons. destruct Hy as [<-|Hy]; [|apply Hmax; exact Hy].
      apply (leb_trans x h (last (h :: t) d)).
      * exact Px.
      * exact Ph.
      * assert (Hin : In (last (h :: t) d) (h :: t)).
        { clear. revert h. induction t as [|a t IHt]; intro h;
            [left; reflexivity|]. rewrite last_cons_cons. right.
          apply IHt. }
        rewrite Forall_forall in Ps. apply Ps. exact Hin.
      * exact Exh.
      * apply Hmax. left. reflexivity.
    + assert (Hne := insert_sorted_not_nil x t).
      destruct (insert_sorted leb x t) as [|b l'] eqn:Ei; [congruence|].
      rewrite last_cons_cons. rewrite <- Ei in *.
      assert (Ht : forall z, In z t -> leb z (last t d) = true).
      { intros z Hz. destruct t as [|a t0]; [contradiction|].
        rewrite <- (last_cons_cons h a t0 d). apply Hmax. right. exact Hz. }
      specialize (IH Pt Ht).
      destruct Hy as [<-|Hy]; [|apply IH; exact Hy].
      assert (Hx : In x (insert_sorted leb x t))
        by (apply insert_sorted_In; left; reflexivity).
      apply (leb_trans h x (last (insert_sorted leb x t) d)).
      * exact Ph.
      * exact Px.
      * assert (Hin : In (last (insert_sorted leb x t) d)
                        (insert_sorted leb x t)).
        { rewrite Ei. clear. revert b.
          induction l' as [|a t IHt]; intro b; [left; reflexivity|].
          rewrite last_cons_cons. right. apply IHt. }
        apply insert_sorted_In in Hin. destruct Hin as [->|Hin]; [exact Px|].
        rewrite Forall_forall in Pt. apply Pt. exact Hin.
      * apply leb_total. exact Exh.
      * apply IH. exact Hx.
Qed.

Lemma sort_last_max (d : A) (l : list A) :
  Forall P l ->
  forall y, In y l -> leb y (last (stable_sort leb l) d) = true.
Proof.
  induction l as [|x l IH]; intros Pl y Hy; [contradiction|].
  inversion Pl as [|x' l' Px Pl']; subst.
  cbn [stable_sort fold_right]. fold (stable_sort leb l).
  apply insert_last_max; auto.
  - apply stable_sort_Forall. exact Pl'.
  - intros z Hz. apply IH; [exact Pl'|].
    apply (stable_sort_In leb). exact Hz.
  - apply insert_sorted_In. destruct Hy as [->|Hy]; [left; reflexivity|].
    right. apply stable_sort_In. exact Hy.
Qed.

End Sort_extrema.

Lemma hd_rev {A : Type} (d : A) (l : list A) : hd d (rev l) = last l d.
Proof.
  induction l as [|a l IH]; [reflexivity|]. cbn [rev].
  destruct l as [|b l]; [reflexivity|].
  rewrite last_cons_cons, <- IH. cbn [rev].
  destruct (rev l ++ [b]) eqn:E; [|reflexivity].
  destruct (rev l); discriminate.
Qed.

Lemma filter_partition_length {A : Type} (p : A -> bool) (l : list A) :
  (List.length (filter (fun a => negb (p a)) l)
   + List.length (filter p l) = List.length l)%nat.
Proof.
  induction l as [|a l IH]; [reflexivity|]. cbn [filter].
  destruct (p a); cbn [negb List.length]; lia.
Qed.

(** Sorting rows on a numeric key: the sort returns every row, and its
    first row holds the least key present (ascending) or the greatest
    (descending). *)
Lemma nargsort_first {A : Type} (key : A -> Cell) (asc : bool) (l : list A) :
  (forall a, In a l -> numeric (key a) = true) ->
  exists s,
    nargsort key asc l = Ok s
    /\ List.length s = List.length l
    /\ (forall x, In x s -> In x l)
    /\ (forall h t y q,
          s = h :: t -> In y l -> key y = CNum q ->
          exists qh,
            key h = CNum qh /\ if asc then qh <= q else q <= qh).
Proof.
  intro Hnum. unfold nargsort.
  set (present := filter (fun a => negb (isna (key a))) l).
  set (missing := filter (fun a => isna (key a)) l).
  set (leb := fun a b => value_leb (key a) (key b)).
  set (P := fun a => exists q, key a = CNum q).
  assert (HP : Forall P present).
  { apply Forall_forall. intros a Ha. apply filter_In in Ha.
    destruct Ha as [Ha Hn]. specialize (Hnum a Ha). unfold P.
    destruct (key a); try discriminate. eauto. }
  assert (Hk : same_kind (map key present) = true).
  { destruct present as [|r p]; [reflexivity|]. cbn [map same_kind].
    inversion HP as [|r' p' [q Eq] Hp]; subst. rewrite Eq. cbn [kind_of].
    apply forallb_forall. intros c Hc. apply in_map_iff in Hc.
    destruct Hc as (r' & <- & Hr'). rewrite Forall_forall in Hp.
    destruct (Hp r' Hr') as [q' ->]. reflexivity. }
  rewrite Hk.
  assert (Hrefl : forall a, P a -> leb a a = true).
  { intros a [q Eq]. unfold leb. rewrite Eq. cbn. apply Qle_bool_iff.
    apply Qle_refl. }
  assert (Htrans : forall a b c, P a -> P b -> P c ->
            leb a b = true -> leb b c = true -> leb a c = true).
  { intros a b c [qa Ea] [qb Eb] [qc Ec]. unfold leb.
    rewrite Ea, Eb, Ec. cbn. rewrite !Qle_bool_iff. apply Qle_trans. }
  assert (Htotal : forall a b, leb a b = false -> leb b a = true).
  { intros a b. apply value_leb_total. }
  set (sorted := if asc then stable_sort leb present
                 else rev (stable_sort leb (rev present))).
  assert (Hin : forall x, In x sorted <-> In x present).
  { intro x. unfold sorted. destruct asc.
    - apply stable_sort_In.
    - rewrite <- in_rev, stable_sort_In, <- in_rev. reflexivity. }
  assert (Hlen : List.length sorted = List.length present).
  { unfold sorted. destruct asc;
      rewrite ?length_rev, stable_sort_length, ?length_rev; reflexivity. }
  exists (sorted ++ missing). split; [reflexivity|]. split; [|split].
  - rewrite length_app, Hlen. apply filter_partition_length.
  - intros x Hx. apply in_app_or in Hx. destruct Hx as [Hx|Hx].
    + apply Hin in Hx. apply filter_In in Hx. tauto.
    + apply filter_In in Hx. tauto.
  - intros h t y q E Hy Eq.
    assert (Hyp : In y present).
    { apply filter_In. split; [exact Hy|]. rewrite Eq. reflexivity. }
    assert (Hys : In y sorted) by (apply Hin; exact Hyp).
    destruct sorted as [|h' t'] eqn:Es; [contradiction|].
    cbn [app] in E. injection E as <- <-.
    assert (Hh : In h' present) by (apply Hin; left; reflexivity).
    rewrite Forall_forall in HP. destruct (HP h' Hh) as [qh Eh].
    exists qh. split; [exact Eh|].
    unfold sorted in Es. destruct asc.
    + assert (Hle : leb h' y = true).
      { apply (sort_head_min leb P Hrefl Htrans Htotal present)
          with (t := t'); auto. apply Forall_forall. exact HP. }
      unfold leb in Hle. rewrite Eh, Eq in Hle. apply Qle_bool_iff. exact Hle.
    + assert (E' : h' = last (stable_sort leb (rev present)) y).
      { rewrite <- hd_rev, Es. reflexivity. }
      assert (Hle : leb y h' = true).
      { rewrite E'.
        apply (sort_last_max leb P Hrefl Htrans Htotal y (rev present)).
        - apply Forall_forall. intros z Hz. apply HP. apply in_rev. exact Hz.
        - apply in_rev in Hyp. exact Hyp. }
      unfold leb in Hle. rewrite Eh, Eq in Hle. apply Qle_bool_iff. exact Hle.
Qed.

(** ** Best, worst and peak *)

Lemma Forall2_In_r {A B : Type} (P : A -> B -> Prop) (l : list A) (m : list B)
    (b : B) :
  Forall2 P l m -> In b m -> exists a, In a l /\ P a b.
Proof.
  induction 1 as [|a b' l m Hab _ IH]; intro Hin; [contradiction|].
  destruct Hin as [<-|Hin].
  - exists a. split; [left; reflexivity|exact Hab].
  - destruct (IH Hin) as (a' & Ha' & Pa'). exists a'. split; [right|]; auto.
Qed.

Lemma cell_div_numeric (a b v : Cell) :
  cell_div a b = Ok v -> numeric v = true.
Proof.
  unfold cell_div. intro H. bind_inv H. bind_inv H.
  destruct a0, a1; try (injection H as <-; reflexivity).
  destruct (Qeq_bool q0 0); injection H as <-; reflexivity.
Qed.

Lemma assign_ratio_inv (t t' : DataFrame) (name num den : string) :
  assign_ratio t name num den = Ok t' ->
  columns t' = columns t ++ [name]
  /\ Forall (fun r => exists r0 v,
               r = r0 ++ [v] /\ In r0 (rows t) /\ numeric v = true)
       (rows t').
Proof.
  unfold assign_ratio. intro H. do 3 bind_inv H. injection H as <-.
  split; [reflexivity|]. unfold assign. cbn [rows].
  apply Forall_forall. intros r Hr. apply in_map_iff in Hr.
  destruct Hr as ([r0 v] & <- & Hin). cbn [fst snd].
  exists r0, v. split; [reflexivity|]. split.
  - exact (in_combine_l _ _ _ _ Hin).
  - apply in_combine_r in Hin.
    destruct (Forall2_In_r _ _ _ _ (mapM_inv _ _ _ Ha1) Hin) as (ab & _ & E).
    exact (cell_div_numeric _ _ _ E).
Qed.

Lemma channel_table_inv (df ch : DataFrame) :
  channel_table df = Ok ch ->
  columns ch = ["Channel"; "Revenue"; "Conversions"; "AOV"; "Rev_per_Conv"]
  /\ forall r, In r (rows ch) -> numeric (cell_at 4 r) = true.
Proof.
  unfold channel_table. intro H. bind_inv H.
  destruct (groupby_agg_inv _ _ _ _ Ha) as (ki & _ & Hcols & Hrows).
  destruct (assign_ratio_inv _ _ _ _ _ H) as (Hc & Hr).
  rewrite Hcols in Hc. split; [exact Hc|].
  intros r Hin. rewrite Forall_forall in Hr.
  destruct (Hr r Hin) as (r0 & v & -> & Hr0 & Hv).
  destruct (Forall2_In_r _ _ _ _ Hrows Hr0) as (k & _ & vals & -> & Hvals).
  inversion Hvals as [|s1 v1 l1 m1 _ H1]; subst.
  inversion H1 as [|s2 v2 l2 m2 _ H2]; subst.
  inversion H2 as [|s3 v3 l3 m3 _ H3]; subst.
  inversion H3; subst. exact Hv.
Qed.

Lemma format_cell_2f_numeric (c : Cell) :
  numeric c = true ->
  format_cell_2f c = Ok (format_fixed false 2 (float_of_numeric c)).
Proof.
  destruct c; try discriminate; reflexivity.
Qed.

(** The channel rule, lines 65-73, given the channel table: on an empty
    table (no row with a channel) it raises [IndexError]; otherwise it
    gives its two messages, the first naming a channel whose revenue per
    conversion is the greatest of the defined ones and the second a channel
    whose revenue per conversion is the least. *)
Theorem best_and_worst_channel (df ch : DataFrame) :
  has_column df "Channel" = true ->
  has_column df "Revenue" = true ->
  channel_table df = Ok ch ->
  (rows ch = [] /\ channel_insight df = Raise IndexError)
  \/ exists best worst,
       In best (rows ch) /\ In worst (rows ch)
       /\ channel_insight df
          = Ok [msg_focus (py_str (cell_at 0 best))
                  (format_fixed false 2 (float_of_numeric (cell_at 4 best)));
                msg_review (py_str (cell_at 0 worst))
                  (format_fixed false 2 (float_of_numeric (cell_at 4 worst)))]
       /\ forall r q,
            In r (rows ch) -> cell_at 4 r = CNum q ->
            exists hi lo,
              cell_at 4 best = CNum hi /\ cell_at 4 worst = CNum lo
              /\ lo <= q /\ q <= hi.
Proof.
  intros Hc Hr Hch. destruct (channel_table_inv _ _ Hch) as (Hcols & Hnum).
  unfold channel_insight. rewrite Hc, Hr. cbn [andb]. rewrite Hch.
  cbn [bind]. unfold sort_values, row_get. rewrite Hcols.
  assert (E4 : index_of "Rev_per_Conv"
                 ["Channel"; "Revenue"; "Conversions"; "AOV"; "Rev_per_Conv"]
               = Some 4%nat) by reflexivity.
  assert (E0 : index_of "Channel"
                 ["Channel"; "Revenue"; "Conversions"; "AOV"; "Rev_per_Conv"]
               = Some 0%nat) by reflexivity.
  rewrite E4, E0.
  destruct (nargsort_first (cell_at 4) false (rows ch) Hnum)
    as (sd & -> & Ld & Ind & Hd).
  destruct (nargsort_first (cell_at 4) true (rows ch) Hnum)
    as (sa & -> & La & Ina & Ha).
  cbn [bind]. unfold iloc0. cbn [rows].
  destruct sd as [|best td].
  - left. split; [|reflexivity].
    apply length_zero_iff_nil. rewrite <- Ld. reflexivity.
  - destruct sa as [|worst ta].
    { cbn [List.length] in *. rewrite <- La in Ld. discriminate. }
    right. exists best, worst. cbn [bind].
    assert (Hb : In best (rows ch)) by (apply Ind; left; reflexivity).
    assert (Hw : In worst (rows ch)) by (apply Ina; left; reflexivity).
    rewrite (format_cell_2f_numeric _ (Hnum best Hb)).
    rewrite (format_cell_2f_numeric _ (Hnum worst Hw)). cbn [bind].
    split; [exact Hb|]. split; [exact Hw|]. split; [reflexivity|].
    intros r q Hin Eq.
    destruct (Hd best td r q eq_refl Hin Eq) as (hi & Ehi & Hhi).
    destruct (Ha worst ta r q eq_refl Hin Eq) as (lo & Elo & Hlo).
    exists hi, lo. auto.
Qed.


(** ** Tables in order of revenue *)






(** The rows of a sum of a numeric Revenue by group: a key and a
    number. *)
Lemma revenue_by_group_rows (df t : DataFrame) (key : string) :
  numeric_column df "Revenue" = true ->
  groupby_agg df key [revenue_sum] = Ok t ->
  forall r, In r (rows t) -> exists k q, r = [k; CNum q].
Proof.
  intros Hrev Ht r Hin.
  destruct (groupby_agg_inv _ _ _ _ Ht) as (ki & Hki & Hcols & Hrows).
  destruct (numeric_column_cells _ _ Hrev) as (ri & Hri & Hn).
  destruct (Forall2_In_r _ _ _ _ Hrows Hin) as (k & _ & vals & -> & Hvals).
  inversion Hvals as [|s1 v1 l1 m1 (j & Hj & H1) H2]; subst.
  inversion H2; subst. cbn [revenue_sum fst snd aggregate] in *.
  assert (j = ri) by congruence. subst j.
  destruct (agg_sum_numeric _
              (numeric_group ri (fun r => cell_eqb (cell_at ki r) k) _ Hn))
    as (q & Hq & _).
  exists k, q. congruence.
Qed.



(** ** Who is coached *)

(** A quantile lies between two of the values. *)
Lemma quantile_between (p : Q) (s : list Cell) (t : Q) :
  quantile p s = Ok (Fin t) ->
  exists a b f,
    In (CNum a) s /\ In (CNum b) s /\ 0 <= f /\ f <= 1
    /\ t = a + (b - a) * f.
Proof.
  unfold quantile. intro H. bind_inv H.
  assert (Hin : forall v, In v (stable_sort Qle_bool (present_values a)) ->
                  In (CNum v) s).
  { intros v Hv. apply stable_sort_In in Hv. unfold present_values in Hv.
    apply in_flat_map in Hv. destruct Hv as (x & Hx & Hv).
    destruct x as [q|]; [|contradiction]. destruct Hv as [<-|[]].
    destruct (Forall2_In_r _ _ _ _ (mapM_inv _ _ _ Ha) Hx) as (c & Hc & E).
    destruct c; try discriminate. injection E as <-. exact Hc. }
  destruct (stable_sort Qle_bool (present_values a)) as [|v0 vs];
    [discriminate|].
  cbv zeta in H. injection H as <-.
  set (pos := p * Q_of_nat (List.length (v0 :: vs) - 1)).
  set (lo := Z.to_nat (Qfloor pos)).
  assert (Ha0 : In (nth lo (v0 :: vs) v0) (v0 :: vs)).
  { destruct (nth_in_or_default lo (v0 :: vs) v0) as [Hn | ->];
      [exact Hn|left; reflexivity]. }
  exists (nth lo (v0 :: vs) v0),
         (nth (S lo) (v0 :: vs) (nth lo (v0 :: vs) v0)),
         (pos - inject_Z (Qfloor pos)).
  split; [apply Hin; exact Ha0|]. split.
  { apply Hin.
    destruct (nth_in_or_default (S lo) (v0 :: vs) (nth lo (v0 :: vs) v0))
      as [Hn | ->]; [exact Hn|exact Ha0]. }
  pose proof (Qfloor_le pos) as Hf1. pose proof (Qlt_floor pos) as Hf2.
  rewrite inject_Z_plus in Hf2.
  split; [lra|]. split; [|reflexivity].
  change (inject_Z 1) with 1 in Hf2. lra.
Qed.

(** A revenue below the first quartile is below the revenue of another
    row. *)
Lemma below_quantile_has_better (p : Q) (l : list Row) (t : pyfloat) (r : Row) :
  quantile p (map (cell_at 1) l) = Ok t ->
  is_below t (cell_at 1 r) = true ->
  exists r', In r' l /\ amount (cell_at 1 r) < amount (cell_at 1 r').
Proof.
  intros Hq Hb. destruct (cell_at 1 r) as [q| | |] eqn:Er; try discriminate.
  destruct t as [th|]; [|discriminate]. cbn [is_below] in Hb.
  apply Qlt_bool_iff in Hb.
  destruct (quantile_between _ _ _ Hq) as (a & b & f & Ha & Hb' & Hf0 & Hf1 & E).
  apply in_map_iff in Ha, Hb'.
  destruct Ha as (ra & Ea & Hra), Hb' as (rb & Eb & Hrb).
  destruct (Qlt_le_dec q a) as [Hlt|Hqa].
  - exists ra. split; [exact Hra|]. rewrite Ea. exact Hlt.
  - destruct (Qlt_le_dec q b) as [Hlt|Hqb].
    + exists rb. split; [exact Hrb|]. rewrite Eb. exact Hlt.
    + exfalso. subst th. nra.
Qed.

(** Sales rep coaching, lines 80-85: every rep the message lists has
    strictly less summed revenue than some other rep, so a rep with the
    highest revenue is never listed; and when all reps have the same
    revenue, as with a single rep, no message is produced. *)
Theorem coaching_spares_the_top (df rep : DataFrame) (t : pyfloat) :
  has_column df "Sales Rep" = true ->
  has_column df "Revenue" = true ->
  groupby_agg df "Sales Rep"
    [revenue_sum; ("Conversions", conversions_agg df)] = Ok rep ->
  quantile (1 # 4) (cells rep "Revenue") = Ok t ->
  (forall recs,
     sales_rep_coaching df = Ok recs ->
     recs = []
     \/ exists listed names,
          recs = [msg_coaching (join ", " names)]
          /\ map (cell_at 0) listed = map CStr names
          /\ forall r, In r listed ->
               In r (rows rep)
               /\ exists r', In r' (rows rep)
                    /\ amount (cell_at 1 r) < amount (cell_at 1 r'))
  /\ ((forall r r', In r (rows rep) -> In r' (rows rep) ->
         amount (cell_at 1 r) == amount (cell_at 1 r')) ->
      sales_rep_coaching df = Ok []).
Proof.
  intros Hsr Hrev Hrep Hq.
  rewrite (sales_rep_coaching_eq df rep t Hsr Hrev Hrep Hq).
  pose proof (groupby_agg_columns _ _ _ _ Hrep) as Hcols.
  cbn [map fst revenue_sum] in Hcols.
  assert (Hcells : cells rep "Revenue" = map (cell_at 1) (rows rep)).
  { unfold cells. rewrite Hcols. reflexivity. }
  rewrite Hcells in Hq.
  set (low := fun r => is_below t (cell_at 1 r)).
  set (leb := fun a b : Row => value_leb (cell_at 1 a) (cell_at 1 b)).
  assert (Hbetter : forall r, In r (filter low (rows rep)) ->
            In r (rows rep)
            /\ exists r', In r' (rows rep)
                 /\ amount (cell_at 1 r) < amount (cell_at 1 r')).
  { intros r Hr. apply filter_In in Hr. destruct Hr as [Hr Hb].
    split; [exact Hr|].
    exact (below_quantile_has_better _ _ _ _ Hq Hb). }
  destruct (filter low (rows rep)) as [|r0 lows] eqn:El.
  - split; [intros recs H; left; congruence|reflexivity].
  - split.
    + intros recs H. right. bind_inv H. injection H as <-.
      exists (firstn 3 (stable_sort leb (r0 :: lows))), a.
      split; [reflexivity|]. split; [exact (mapM_str_item _ _ Ha)|].
      intros r Hr. apply Hbetter. apply (stable_sort_In leb).
      exact (firstn_In _ _ _ Hr).
    + intro Hsame. exfalso.
      destruct (Hbetter r0 (or_introl eq_refl)) as (Hr0 & r' & Hr' & Hlt).
      rewrite (Hsame r0 r' Hr0 Hr') in Hlt. exact (Qlt_irrefl _ Hlt).
Qed.

(** ** The recommendations on the page *)

Lemma pdf_recs_line (start : Z) (recs : list string) (i : nat) (r : string) :
  nth_error recs i = Some r ->
  In (TextCell 0 5
        (format_int (start + Z.of_nat i) ++ ". " ++ take 100 (ascii_only r))%string
        "")
     (pdf_recs start recs).
Proof.
  revert start i. induction recs as [|r0 recs IH]; intros start i H.
  - destruct i; discriminate.
  - destruct i as [|i]; cbn [nth_error] in H; cbn [pdf_recs].
    + injection H as <-. left. rewrite Z.add_0_r. reflexivity.
    + right. replace (start + Z.of_nat (S i))%Z with (start + 1 + Z.of_nat i)%Z
        by lia.
      apply IH. exact H.
Qed.

Lemma recommendations_length (df : DataFrame) (recs : list string) :
  make_recommendations df = Ok recs -> (List.length recs <= 5)%nat.
Proof.
  unfold make_recommendations. intro H. do 3 bind_inv H. injection H as <-.
  rewrite !length_app.
  assert (H1 : (List.length a <= 2)%nat).
  { destruct (channel_insight_shape _ _ Ha) as [->|(b & br & w & wr & ->)];
      cbn; lia. }
  assert (H2 : (List.length a0 <= 1)%nat).
  { destruct (time_of_day_insight_shape _ _ Ha0) as [->|(x & ->)]; cbn; lia. }
  assert (H3 : (List.length a1 <= 1)%nat).
  { destruct (sales_rep_coaching_shape _ _ Ha1) as [->|(x & ->)]; cbn; lia. }
  assert (H4 : (List.length (inventory_reminder df) <= 1)%nat).
  { unfold inventory_reminder. destruct (existsb _ (columns df)); cbn; lia. }
  lia.
Qed.

(** [make_recommendations] with lines 149-159 of [create_pdf_report]: the
    rules give at most five messages, so the cut to five of the page drops
    none: every message returned is printed, under the number of its
    position, reduced to its ASCII characters and to 100 of them. *)
Theorem every_recommendation_is_printed (df : DataFrame) (recs : list string) :
  make_recommendations df = Ok recs ->
  (List.length recs <= 5)%nat
  /\ forall metrics top_channels top_reps meta today doc i r,
       create_pdf_report metrics top_channels top_reps recs meta today = Ok doc ->
       nth_error recs i = Some r ->
       In (TextCell 0 5
             (format_int (Z.of_nat (S i)) ++ ". " ++ take 100 (ascii_only r))%string
             "")
          doc.
Proof.
  intro H. pose proof (recommendations_length _ _ H) as Hlen.
  split; [exact Hlen|].
  intros metrics tc tr meta today doc i r Hdoc Hr.
  unfold create_pdf_report in Hdoc.
  destruct (py_int (Fin (orders metrics))) as [n|e]; [|discriminate].
  cbn [bind] in Hdoc. injection Hdoc as <-.
  do 18 right. apply in_or_app. right. apply in_or_app. right.
  unfold pdf_recommendations. destruct recs as [|r0 recs'] eqn:E.
  - destruct i; discriminate.
  - rewrite <- E in *. apply in_or_app. right.
    rewrite firstn_all2 by exact Hlen.
    replace (Z.of_nat (S i)) with (1 + Z.of_nat i)%Z by lia.
    apply pdf_recs_line. exact Hr.
Qed.

(** ** The sections and the recommendations *)

(** An aggregation that returns found each of its source columns. *)
Lemma groupby_agg_sources (df t : DataFrame) (key : string)
    (specs : list NamedAgg) (sp : NamedAgg) :
  groupby_agg df key specs = Ok t ->
  In sp specs ->
  has_column df (fst (snd sp)) = true.
Proof.
  unfold groupby_agg. intros H Hin. bind_inv H. bind_inv H.
  pose proof (mapM_inv _ _ _ Ha0) as Hcols.
  assert (Hex : exists jf,
            (j <- find_column df (fst (snd sp)) ;; Ok (j, snd (snd sp)))
            = Ok jf).
  { clear - Hcols Hin. induction Hcols as [|x y l m Hxy _ IH];
      [contradiction|].
    destruct Hin as [<-|Hin]; [eauto|exact (IH Hin)]. }
  destruct Hex as (jf & Hjf). bind_inv Hjf. unfold find_column in Ha1.
  destruct (index_of (fst (snd sp)) (columns df)) as [j|] eqn:E;
    [|discriminate].
  exact (index_has_column _ _ _ E).
Qed.

(** The time of day section, lines 243-248, and the time of day rule,
    lines 75-78: whenever the section shows its table, the window the rule
    names is the one of the first row of the table, and the rule raises
    [IndexError] when the table has no row. *)
Theorem peak_is_first_row_of_section (df tod : DataFrame) :
  time_of_day_section df = Ok (Shown tod) ->
  match rows tod with
  | [] => time_of_day_insight df = Raise IndexError
  | top :: _ => time_of_day_insight df = Ok [msg_peak (py_str (cell_at 0 top))]
  end.
Proof.
  unfold time_of_day_section, time_of_day_insight.
  destruct (has_column df "Time of Day") eqn:Ht; [|discriminate].
  intro H. bind_inv H. bind_inv H. injection H as <-.
  destruct (groupby_agg_inv _ _ _ _ Ha) as (ki & _ & Hcols & Hrows).
  cbn [map fst] in Hcols.
  assert (Hrev : has_column df "Revenue" = true).
  { apply (groupby_agg_sources _ _ _ _ ("Revenue", ("Revenue", AggSum)) Ha).
    left. reflexivity. }
  rewrite Hrev. cbn [andb]. rewrite Ha. cbn [bind]. rewrite Ha0. cbn [bind].
  unfold sort_values in Ha0. rewrite Hcols in Ha0.
  assert (E1 : index_of "Revenue" ["Time of Day"; "Revenue"] = Some 1%nat)
    by reflexivity.
  rewrite E1 in Ha0. bind_inv Ha0. injection Ha0 as <-.
  unfold iloc0, row_get. cbn [rows columns].
  destruct a1 as [|top rest]; reflexivity.
Qed.


(** ** The text report *)

Lemma Forall2_In_l {A B : Type} (P : A -> B -> Prop) (l : list A) (m : list B)
    (a : A) :
  Forall2 P l m -> In a l -> exists b, In b m /\ P a b.
Proof.
  induction 1 as [|a' b l m Hab _ IH]; intro Hin; [contradiction|].
  destruct Hin as [<-|Hin].
  - exists b. split; [left; reflexivity|exact Hab].
  - destruct (IH Hin) as (b' & Hb' & Pb'). exists b'. split; [right|]; auto.
Qed.

(** A report table over a numeric Revenue column: two columns, and rows of
    a key and a number. *)
Lemma report_table_rows (df t : DataFrame) (name : string) :
  name <> "Revenue" ->
  numeric_column df "Revenue" = true ->
  top_table df name = Ok t ->
  columns t = [name; "Revenue"]
  /\ forall r, In r (rows t) -> exists k q, r = [k; CNum q].
Proof.
  intros Hneq Hrev. unfold top_table.
  destruct (has_column df name) eqn:Hn.
  - intro H. bind_inv H.
    pose proof (groupby_agg_columns _ _ _ _ Ha) as Hcols.
    cbn [map fst] in Hcols.
    pose proof (revenue_by_group_rows df a name Hrev Ha) as Hshape.
    assert (Hnum : forall r, In r (rows a) -> numeric (cell_at 1 r) = true).
    { intros r Hr. destruct (Hshape r Hr) as (k & q & ->). reflexivity. }
    unfold sort_values in H. rewrite Hcols in H. cbn [index_of] in H.
    destruct (String.eqb_spec "Revenue" name) as [E|_];
      [symmetry in E; contradiction|].
    rewrite String.eqb_refl in H. cbn [option_map] in H.
    destruct (nargsort_first (cell_at 1) false (rows a) Hnum)
      as (s & Es & _ & Hin & _).
    rewrite Es in H. injection H as <-. split; [reflexivity|].
    intros r Hr. apply Hshape. apply Hin. exact Hr.
  - intro H. injection H as <-. split; [reflexivity|]. intros r [].
Qed.

Lemma text_table_lines (title name : string) (t : DataFrame) :
  name <> "Revenue" ->
  columns t = [name; "Revenue"] ->
  (forall r, In r (rows t) -> exists k q, r = [k; CNum q]) ->
  exists lines,
    text_table title name t = Ok lines
    /\ forall r, In r (rows (head 5 t)) -> In (text_line_of r) lines.
Proof.
  intros Hneq Hcols Hshape. unfold text_table.
  destruct (empty t) eqn:E.
  - exists []. split; [reflexivity|]. intros r Hr. exfalso.
    unfold empty in E. rewrite Hcols in E. cbn [head rows] in Hr.
    destruct (rows t); [exact Hr|discriminate].
  - destruct (mapM_Forall2 (text_table_row t name)
                (fun r line => line = text_line_of r) (rows (head 5 t)))
      as (lines & -> & HF).
    { intros r Hr. cbn [head rows] in Hr. apply firstn_In in Hr.
      destruct (Hshape r Hr) as (k & q & ->).
      eexists. split; [|reflexivity].
      unfold text_table_row, row_get. rewrite Hcols. cbn [index_of].
      rewrite String.eqb_refl.
      destruct (String.eqb_spec "Revenue" name) as [E'|_];
        [symmetry in E'; contradiction|].
      rewrite String.eqb_refl. reflexivity. }
    cbn [bind]. eexists. split; [reflexivity|].
    intros r Hr. apply in_or_app. right.
    destruct (Forall2_In_l _ _ _ _ HF Hr) as (line & Hline & ->).
    exact Hline.
Qed.

Lemma text_recs_line (start : Z) (recs : list string) (i : nat) (r : string) :
  nth_error recs i = Some r ->
  In (format_int (start + Z.of_nat i) ++ ". " ++ r)%string
     (text_recs start recs).
Proof.
  revert start i. induction recs as [|r0 recs IH]; intros start i H.
  - destruct i; discriminate.
  - destruct i as [|i]; cbn [nth_error] in H; cbn [text_recs].
    + injection H as <-. left. rewrite Z.add_0_r. reflexivity.
    + right. replace (start + Z.of_nat (S i))%Z with (start + 1 + Z.of_nat i)%Z
        by lia.
      apply IH. exact H.
Qed.

(** [create_text_report], lines 298-342, called outside any [try]: with
    the report tables of a numeric Revenue column it does not raise; its
    lines hold one line for each of the first five rows of either table,
    every recommendation in full under the number of its position, and the
    metadata line. *)
Theorem text_report_is_produced (df tc tr : DataFrame) :
  numeric_column df "Revenue" = true ->
  top_channels df = Ok tc ->
  top_reps df = Ok tr ->
  forall metrics recs meta now,
  exists lines,
    text_report_lines metrics tc tr recs meta now = Ok lines
    /\ create_text_report metrics tc tr recs meta now
       = Ok (join newline lines)
    /\ (forall r, In r (rows (head 5 tc)) -> In (text_line_of r) lines)
    /\ (forall r, In r (rows (head 5 tr)) -> In (text_line_of r) lines)
    /\ (forall i r, nth_error recs i = Some r ->
          In (format_int (Z.of_nat (S i)) ++ ". " ++ r)%string lines)
    /\ In ("Data Source: " ++ meta)%string lines.
Proof.
  intros Hrev Htc Htr metrics recs meta now.
  destruct (report_table_rows df tc "Channel") as (Hc1 & Hs1);
    [discriminate|exact Hrev|exact Htc|].
  destruct (report_table_rows df tr "Sales Rep") as (Hc2 & Hs2);
    [discriminate|exact Hrev|exact Htr|].
  destruct (text_table_lines "TOP CHANNELS BY REVENUE" "Channel" tc)
    as (l1 & E1 & H1); [discriminate|exact Hc1|exact Hs1|].
  destruct (text_table_lines "TOP SALES REPRESENTATIVES" "Sales Rep" tr)
    as (l2 & E2 & H2); [discriminate|exact Hc2|exact Hs2|].
  unfold create_text_report, text_report_lines.
  cbn [py_int bind]. rewrite E1, E2. cbn [bind].
  eexists. split; [reflexivity|]. split; [reflexivity|].
  split; [|split; [|split]].
  - intros r Hr. apply in_or_app. right. apply in_or_app. left. auto.
  - intros r Hr. apply in_or_app. right. apply in_or_app. right.
    apply in_or_app. left. auto.
  - intros i r Hr. apply in_or_app. right. apply in_or_app. right.
    apply in_or_app. right. apply in_or_app. left.
    unfold text_recommendations. destruct recs as [|r0 recs'] eqn:E.
    + destruct i; discriminate.
    + rewrite <- E in *. apply in_or_app. right.
      replace (Z.of_nat (S i)) with (1 + Z.of_nat i)%Z by lia.
      apply text_recs_line. exact Hr.
  - apply in_or_app. right. apply in_or_app. right.
    apply in_or_app. right. apply in_or_app. right.
    right. left. reflexivity.
Qed.

(** ** The tables of the page *)

Lemma pdf_table_lines (title name : string) (t : DataFrame) :
  name <> "Revenue" ->
  columns t = [name; "Revenue"] ->
  (forall r, In r (rows t) -> exists k q, r = [k; CNum q]) ->
  forall r, In r (rows (head 5 t)) -> In (pdf_line_of r) (pdf_table title name t).
Proof.
  intros Hneq Hcols Hshape r Hr. unfold pdf_table. cbn [head rows] in *.
  destruct (rows t) as [|r0 rs].
  - rewrite firstn_nil in Hr. destruct Hr.
  - apply in_or_app. right. apply in_or_app. left.
    apply in_flat_map. exists r. split; [exact Hr|].
    apply firstn_In in Hr.
    destruct (Hshape r Hr) as (k & q & ->).
    unfold pdf_table_row, row_get. rewrite Hcols. cbn [index_of].
    rewrite String.eqb_refl.
    destruct (String.eqb_spec "Revenue" name) as [E'|_];
      [symmetry in E'; contradiction|].
    rewrite String.eqb_refl. left. reflexivity.
Qed.

(** [create_pdf_report], lines 120-146, with the report tables of a
    numeric Revenue column: the page is produced and holds one line for
    each of the first five rows of either table, the name cut at 40
    characters and the revenue without decimals. *)
Theorem pdf_report_lists_top_rows (df tc tr : DataFrame) :
  numeric_column df "Revenue" = true ->
  top_channels df = Ok tc ->
  top_reps df = Ok tr ->
  forall metrics recs meta today,
  exists doc,
    create_pdf_report metrics tc tr recs meta today = Ok doc
    /\ (forall r, In r (rows (head 5 tc)) -> In (pdf_line_of r) doc)
    /\ (forall r, In r (rows (head 5 tr)) -> In (pdf_line_of r) doc).
Proof.
  intros Hrev Htc Htr metrics recs meta today.
  destruct (report_table_rows df tc "Channel") as (Hc1 & Hs1);
    [discriminate|exact Hrev|exact Htc|].
  destruct (report_table_rows df tr "Sales Rep") as (Hc2 & Hs2);
    [discriminate|exact Hrev|exact Htr|].
  unfold create_pdf_report. cbn [py_int bind].
  eexists. split; [reflexivity|]. split.
  - intros r Hr. apply in_or_app. right. apply in_or_app. left.
    apply pdf_table_lines; auto. discriminate.
  - intros r Hr. apply in_or_app. right. apply in_or_app. right.
    apply in_or_app. left. apply pdf_table_lines; auto. discriminate.
Qed.

(** ** When the recommendations are returned *)








End Dashboard.

(** * Closed instances *)

(** C1 as stated fails: with the values 100, "abc", 50 in the Revenue
    column the claim's sum, in which the failing value counts for zero, is
    150, and [compute_metrics] returns revenue 0. *)
Lemma lenient_total_refuted :
  ~ metrics_follow demo_float (lenient_total demo_float) df_mixed_revenue.
Proof.
  intros (m & Hm & Hrev & _).
  vm_compute in Hm. injection Hm as <-.
  vm_compute in Hrev. discriminate Hrev.
Qed.

(** Two columns named Revenue, as [Revenue] and [ Revenue] are once line
    42 has stripped them: every value coerces, and the revenue is 0. *)
Lemma duplicated_revenue_counts_zero :
  duplicated df_two_revenues "Revenue" = true
  /\ (exists m,
        compute_metrics demo_float df_two_revenues = Ok m
        /\ revenue m == 0 /\ orders m == 2 /\ float_eq (aov m) (Fin 0))
  /\ column_total demo_float df_two_revenues "Revenue" == 0
  /\ lenient_total demo_float df_two_revenues "Revenue" == 150.
Proof.
  split; [reflexivity|]. split.
  - eexists. split; [vm_compute; reflexivity|].
    repeat split; vm_compute; reflexivity.
  - split; vm_compute; reflexivity.
Qed.

(** C8 on the scenario: orders is 10, and aov * 10 gives back 500. *)
Lemma aov_times_orders_scenario :
  exists a,
    aov scenario_metrics = Fin a
    /\ a * orders scenario_metrics == revenue scenario_metrics.
Proof.
  apply (aov_times_orders demo_float df_scenario).
  - vm_compute. reflexivity.
  - vm_compute. reflexivity.
Defined.





(** C5 as stated fails: the row without a channel belongs to no group,
    and the group sums total 100 where the Revenue column sums to 150. *)
Lemma missing_group_is_dropped :
  ~ (exists t sums,
       groupby_agg df_missing_channel "Channel" [revenue_sum] = Ok t
       /\ column t "Revenue" = Ok sums
       /\ total sums == safe_sum demo_float (cells df_missing_channel "Revenue")).
Proof.
  intros (t & sums & Ht & Hs & Htot).
  vm_compute in Ht. injection Ht as <-.
  vm_compute in Hs. injection Hs as <-.
  vm_compute in Htot. discriminate Htot.
Qed.

(** C5 (amended) on the scenario, grouped by channel. *)
Lemma group_sums_total_scenario :
  exists t sums,
    groupby_agg df_scenario "Channel"
      (revenue_sum :: [("Conversions", ("Conversions", AggSum))]) = Ok t
    /\ cells t "Channel" = group_keys (cells df_scenario "Channel")
    /\ (forall k, In k (cells t "Channel") -> isna k = false)
    /\ column t "Revenue" = Ok sums
    /\ total sums == total (cells (dropna df_scenario "Channel") "Revenue")
    /\ (forallb (fun c => negb (isna c)) (cells df_scenario "Channel") = true ->
        total sums == safe_sum demo_float (cells df_scenario "Revenue")).
Proof.
  destruct (group_sums_total demo_float df_scenario "Channel"
              [("Conversions", ("Conversions", AggSum))])
    as [Hall Hex];
    [reflexivity|reflexivity|discriminate|reflexivity|reflexivity|].
  destruct (Hex eq_refl) as [t Ht].
  destruct (Hall t Ht) as (sums & H1 & H2 & H3 & H4 & H5).
  exists t, sums. auto 10.
Defined.

(** A Conversions column of text sums by concatenation: the aggregation
    returns, and C5 (amended) speaks of its sums of Revenue. *)
Lemma text_conversions_are_aggregated :
  groupby_agg df_text_columns "Channel"
    [revenue_sum; ("Conversions", ("Conversions", AggSum))]
  = Ok (mkDataFrame ["Channel"; "Revenue"; "Conversions"]
          [[CStr "A"; CNum 150; CStr "twoone"]; [CStr "B"; CNum 200; CStr "four"]]).
Proof. vm_compute. reflexivity. Qed.

(** An Average Order Size column of text has no mean: the aggregation of
    lines 66-68 raises [TypeError]. *)
Lemma mean_of_text_raises :
  groupby_agg df_text_columns "Channel"
    [revenue_sum; ("AOV", ("Average Order Size", AggMean))]
  = Raise TypeError.
Proof. vm_compute. reflexivity. Qed.

(** C7 on five reps: the first quartile is 30 and Bob, at 25, is the one
    rep below it. *)
Lemma coaching_lists_low_performers_reps :
  (forall recs,
     sales_rep_coaching df_reps = Ok recs ->
     recs = []
     \/ exists listed names,
          recs = [msg_coaching (join ", " names)]
          /\ (1 <= List.length listed <= 3)%nat
          /\ map (cell_at 0) listed = map CStr names
          /\ (forall r, In r listed ->
                In r (rows rep_table)
                /\ is_below rep_threshold (cell_at 1 r) = true)
          /\ ascending_by 1 listed)
  /\ ((forall r, In r (rows rep_table) ->
         is_below rep_threshold (cell_at 1 r) = false)
      <-> sales_rep_coaching df_reps = Ok [])
  /\ ((forall r, In r (rows rep_table) -> exists n, cell_at 0 r = CStr n) ->
      exists recs, sales_rep_coaching df_reps = Ok recs).
Proof.
  apply (coaching_lists_low_performers df_reps rep_table rep_threshold);
    reflexivity.
Defined.

(** C2 as stated fails: on the scenario the invest-more message and the
    review message do not name one channel each; both name channel A. *)
Lemma scenario_names_channel_A_twice :
  ~ (exists recs,
       make_recommendations demo_str df_scenario = Ok recs
       /\ names_one_channel_each recs).
Proof.
  intros (recs & H & best & worst & rb & rw & Hb & Hw & Hor).
  vm_compute in H. injection H as <-.
  destruct Hor as [[-> ->]|[-> ->]].
  - cbn in Hw. destruct Hw as [Hw|[Hw|[Hw|[]]]]; discriminate Hw.
  - cbn in Hb. destruct Hb as [Hb|[Hb|[Hb|[]]]]; discriminate Hb.
Qed.

(** * Closed instances of the further properties *)

(** The metrics of the scenario and of its rows reversed agree. *)
Lemma metrics_ignore_row_order_scenario :
  exists m m',
    compute_metrics demo_float df_scenario = Ok m
    /\ compute_metrics demo_float df_scenario_reversed = Ok m'
    /\ revenue m == revenue m'
    /\ orders m == orders m'
    /\ float_eq (aov m) (aov m')
    /\ float_eq (conv_rate m) (conv_rate m')
    /\ nrows m = nrows m'.
Proof.
  apply (metrics_ignore_row_order demo_float df_scenario df_scenario_reversed).
  - reflexivity.
  - apply Permutation_rev.
  - split; [reflexivity|vm_compute; discriminate].
  - split; [reflexivity|vm_compute; discriminate].
Defined.

(** The default filters on the dataset with an unparsed date keep a
    selection of its rows. *)
Lemma filters_only_drop_rows_unparsed :
  columns (mkDataFrame ["Date"; "Revenue"] [[CTime 0; CNum 10]])
  = columns df_unparsed_date
  /\ (exists keep,
        rows (mkDataFrame ["Date"; "Revenue"] [[CTime 0; CNum 10]])
        = filter keep (rows df_unparsed_date))
  /\ (len (mkDataFrame ["Date"; "Revenue"] [[CTime 0; CNum 10]])
      <= len df_unparsed_date)%nat.
Proof.
  apply (filters_only_drop_rows select_all). reflexivity.
Defined.


(** The row that the default range keeps of the dataset with an unparsed
    date lies within the range. *)
Lemma date_range_bounds_unparsed :
  exists t a b,
    row_get df_unparsed_date [CTime 0; CNum 10] "Date" = Ok (CTime t)
    /\ Some 0%Z = Some a /\ Some 0%Z = Some b
    /\ (a * day_ns <= t <= b * day_ns)%Z.
Proof.
  apply (date_range_bounds select_all df_unparsed_date
           (mkDataFrame ["Date"; "Revenue"] [[CTime 0; CNum 10]])).
  - reflexivity.
  - reflexivity.
  - reflexivity.
  - left. reflexivity.
Defined.

(** The default range drops the row of [df_timed] that is one nanosecond
    into its last day. *)
Lemma default_range_drops_last_day_timed :
  (len (mkDataFrame ["Date"; "Revenue"] [[CTime 0; CNum 10]])
   < len df_timed)%nat.
Proof.
  apply (default_range_drops_last_day select_all df_timed _ 86400000000001).
  - reflexivity.
  - reflexivity.
  - vm_compute. discriminate.
  - intros lo hi. reflexivity.
  - reflexivity.
Defined.

(** Grouping [df_missing_channel] by channel gives the one row of channel
    A. *)
Lemma one_row_per_group_missing_channel :
  (forall c, In c (cells df_missing_channel "Channel") ->
     occurrences (cells (mkDataFrame ["Channel"; "Revenue"]
                           [[CStr "A"; CNum 100]]) "Channel") c
     = if isna c then O else 1%nat)
  /\ (forall k,
        In k (cells (mkDataFrame ["Channel"; "Revenue"]
                       [[CStr "A"; CNum 100]]) "Channel") ->
        isna k = false /\ isin (cells df_missing_channel "Channel") k = true)
  /\ Sorted (fun a b => key_leb a b = true)
       (cells (mkDataFrame ["Channel"; "Revenue"]
                 [[CStr "A"; CNum 100]]) "Channel")
  /\ len (mkDataFrame ["Channel"; "Revenue"] [[CStr "A"; CNum 100]])
     = List.length (cells (mkDataFrame ["Channel"; "Revenue"]
                             [[CStr "A"; CNum 100]]) "Channel").
Proof.
  apply (one_row_per_group demo_float demo_str df_missing_channel _ "Channel"
           [revenue_sum]).
  reflexivity.
Defined.


(** On [df_week] the invest-more message names Web (100 per conversion)
    and the review message names Store (20 per conversion); the sale
    without a channel counts for neither. *)
Lemma best_and_worst_channel_week :
  exists ch,
    channel_table df_week = Ok ch
    /\ ((rows ch = [] /\ channel_insight demo_str df_week = Raise IndexError)
        \/ exists best worst,
             In best (rows ch) /\ In worst (rows ch)
             /\ channel_insight demo_str df_week
                = Ok [msg_focus (py_str demo_str (cell_at 0 best))
                        (format_fixed false 2
                           (float_of_numeric (cell_at 4 best)));
                      msg_review (py_str demo_str (cell_at 0 worst))
                        (format_fixed false 2
                           (float_of_numeric (cell_at 4 worst)))]
             /\ forall r q,
                  In r (rows ch) -> cell_at 4 r = CNum q ->
                  exists hi lo,
                    cell_at 4 best = CNum hi /\ cell_at 4 worst = CNum lo
                    /\ lo <= q /\ q <= hi).
Proof.
  eexists. split; [reflexivity|].
  apply (best_and_worst_channel demo_str df_week); reflexivity.
Defined.




(** On [df_reps] Bob, with 25, is listed: below Ann's 100. *)
Lemma coaching_spares_the_top_reps :
  (forall recs,
     sales_rep_coaching df_reps = Ok recs ->
     recs = []
     \/ exists listed names,
          recs = [msg_coaching (join ", " names)]
          /\ map (cell_at 0) listed = map CStr names
          /\ forall r, In r listed ->
               In r (rows rep_table)
               /\ exists r', In r' (rows rep_table)
                    /\ amount (cell_at 1 r) < amount (cell_at 1 r'))
  /\ ((forall r r', In r (rows rep_table) -> In r' (rows rep_table) ->
         amount (cell_at 1 r) == amount (cell_at 1 r')) ->
      sales_rep_coaching df_reps = Ok []).
Proof.
  apply (coaching_spares_the_top df_reps rep_table rep_threshold);
    reflexivity.
Defined.

(** The five messages of [df_week] are all on its page. *)
Lemma every_recommendation_is_printed_week :
  exists recs,
    make_recommendations demo_str df_week = Ok recs
    /\ (List.length recs <= 5)%nat
    /\ forall metrics top_channels top_reps meta today doc i r,
         create_pdf_report demo_float demo_str metrics top_channels top_reps
           recs meta today = Ok doc ->
         nth_error recs i = Some r ->
         In (TextCell 0 5
               (format_int (Z.of_nat (S i)) ++ ". "
                ++ take 100 (ascii_only r))%string
               "")
            doc.
Proof.
  eexists. split; [reflexivity|].
  apply (every_recommendation_is_printed demo_float demo_str df_week).
  reflexivity.
Defined.

(** On [df_week] the section shows Evening, then Morning, and the rule
    names the evening. *)
Lemma peak_is_first_row_of_section_week :
  exists tod,
    time_of_day_section df_week = Ok (Shown tod)
    /\ match rows tod with
       | [] => time_of_day_insight demo_str df_week = Raise IndexError
       | top :: _ =>
           time_of_day_insight demo_str df_week
           = Ok [msg_peak (py_str demo_str (cell_at 0 top))]
       end.
Proof.
  eexists. split; [reflexivity|].
  apply (peak_is_first_row_of_section demo_str df_week). reflexivity.
Defined.


(** The text report of [df_week] is produced, whatever the metrics, the
    recommendations and the metadata handed to it. *)
Lemma text_report_is_produced_week :
  exists tc tr,
    top_channels df_week = Ok tc
    /\ top_reps df_week = Ok tr
    /\ forall metrics recs meta now,
       exists lines,
         text_report_lines demo_str metrics tc tr recs meta now = Ok lines
         /\ create_text_report demo_str metrics tc tr recs meta now
            = Ok (join newline lines)
         /\ (forall r, In r (rows (head 5 tc)) ->
               In (text_line_of demo_str r) lines)
         /\ (forall r, In r (rows (head 5 tr)) ->
               In (text_line_of demo_str r) lines)
         /\ (forall i r, nth_error recs i = Some r ->
               In (format_int (Z.of_nat (S i)) ++ ". " ++ r)%string lines)
         /\ In ("Data Source: " ++ meta)%string lines.
Proof.
  eexists. eexists. split; [reflexivity|]. split; [reflexivity|].
  apply (text_report_is_produced demo_str df_week); reflexivity.
Defined.

(** The page of [df_week] lists its three channels and its three reps. *)
Lemma pdf_report_lists_top_rows_week :
  exists tc tr,
    top_channels df_week = Ok tc
    /\ top_reps df_week = Ok tr
    /\ forall metrics recs meta today,
       exists doc,
         create_pdf_report demo_float demo_str metrics tc tr recs meta today
         = Ok doc
         /\ (forall r, In r (rows (head 5 tc)) ->
               In (pdf_line_of demo_str r) doc)
         /\ (forall r, In r (rows (head 5 tr)) ->
               In (pdf_line_of demo_str r) doc).
Proof.
  eexists. eexists. split; [reflexivity|]. split; [reflexivity|].
  apply (pdf_report_lists_top_rows demo_float demo_str df_week); reflexivity.
Defined.

